(** * PaperPostman: the paper pipeline, the weekly accumulator and the
      document renderer, embedded in Rocq

    The development follows the Python sources

    - [src/paper_filter.py]    (keyword and date filters, sort, deduplication),
    - [src/storage.py]         (JSON bucket files, the weekly accumulator),
    - [src/readme_generator.py] (the markdown document).

    Python values are embedded shallowly: a paper dictionary is a record, a
    Python [set] of strings is a [gset string], the files on disk are a
    [gmap] from paths to contents, loops over a list are left folds over an
    explicit loop state, and the ambient clock is an explicit argument.

    Text is modelled by Rocq strings over ASCII characters: [lower],
    [strip] and the regular-expression classes [\w] and [\s] are the ASCII
    restrictions of the Python ones. *)

From Stdlib Require Import ZArith NArith Ascii String DecimalString Permutation.
From Stdlib Require DecimalPos DecimalN.
From stdpp Require Import gmap strings list fin_maps sorting.

Local Open Scope Z_scope.

(* ===================================================================== *)
(** * Part I: the embedding                                               *)
(* ===================================================================== *)

(** ** Python string primitives *)

(** Text is a sequence of ASCII characters: [lower], [strip] and the
    classes [\w] and [\s] below are Python's on ASCII text.  On other
    characters Python's versions do more (they lower-case letters such as
    É, trim the no-break space, and count accented letters as word
    characters), which these do not follow. *)

Module PyStr.

(** Truthiness of a [str]: every string but the empty one. *)
Definition truthy (s : string) : bool :=
  match s with "" => false | String _ _ => true end.

Definition code (c : ascii) : N := N_of_ascii c.

(** [str.isspace] on one ASCII character: TAB, LF, VT, FF, CR, the four
    separators 0x1c-0x1f and the blank. *)
Definition isspace (c : ascii) : bool :=
  let n := code c in
  ((9 <=? n) && (n <=? 13) || (28 <=? n) && (n <=? 32))%N.

(** The class [\w]: letters, digits and the underscore. *)
Definition isword (c : ascii) : bool :=
  let n := code c in
  ((48 <=? n) && (n <=? 57) || (65 <=? n) && (n <=? 90)
   || (97 <=? n) && (n <=? 122) || (n =? 95))%N.

Definition lower_char (c : ascii) : ascii :=
  let n := code c in
  if ((65 <=? n) && (n <=? 90))%N then ascii_of_N (n + 32) else c.

Fixpoint map_chars (f : ascii → ascii) (s : string) : string :=
  match s with
  | "" => ""
  | String c r => String (f c) (map_chars f r)
  end.

(** [s.lower()] *)
Definition lower (s : string) : string := map_chars lower_char s.

(** [s.lstrip()], [s.rstrip()], [s.strip()] *)
Fixpoint lstrip (s : string) : string :=
  match s with
  | "" => ""
  | String c r => if isspace c then lstrip r else s
  end.

Fixpoint rstrip (s : string) : string :=
  match s with
  | "" => ""
  | String c r =>
      match rstrip r with
      | "" => if isspace c then "" else String c ""
      | r' => String c r'
      end
  end.

Definition strip (s : string) : string := rstrip (lstrip s).

(** [s.startswith(sub)] *)
Fixpoint startswith (s sub : string) {struct sub} : bool :=
  match sub with
  | "" => true
  | String a sub' =>
      match s with
      | "" => false
      | String b s' => if Ascii.eqb a b then startswith s' sub' else false
      end
  end.

(** [sub in s]: [sub] occurs in [s] as a contiguous substring. *)
Fixpoint contains (sub s : string) : bool :=
  startswith s sub
  || match s with
     | "" => false
     | String _ r => contains sub r
     end.

(** [s.endswith("/")], the only use the sources make of [endswith]. *)
Fixpoint endswith_slash (s : string) : bool :=
  match s with
  | "" => false
  | String c "" => Ascii.eqb c "/"
  | String _ r => endswith_slash r
  end.

(** [sep.join(xs)] *)
Fixpoint join (sep : string) (xs : list string) : string :=
  match xs with
  | [] => ""
  | [x] => x
  | x :: r => x +:+ sep +:+ join sep r
  end.

(** ["".join(parts)] *)
Definition concat (parts : list string) : string :=
  foldr String.append "" parts.

(** [re.sub(r'[^\w\s]', ' ', s)]: every character that is neither a word
    character nor white space becomes one blank. *)
Definition sub_nonword (s : string) : string :=
  map_chars (λ c, if isword c || isspace c then c else " "%char) s.

(** [str(n)] for a non-negative integer. *)
Definition str_N (n : N) : string := NilZero.string_of_uint (N.to_uint n).

Fixpoint zeros (k : nat) : string :=
  match k with O => "" | S k' => String "0" (zeros k') end.

(** [str(n)] and the format ["%0<w>d" % n] for an integer. *)
Definition str_Z (n : Z) : string :=
  (if n <? 0 then "-" else "") +:+ str_N (Z.abs_N n).

Definition zfill (w : nat) (n : Z) : string :=
  let digits := str_N (Z.abs_N n) in
  if n <? 0
  then "-" +:+ zeros (w - 1 - String.length digits) +:+ digits
  else zeros (w - String.length digits) +:+ digits.

End PyStr.

(** ** [datetime]: naive timestamps, their order and the ISO calendar *)

Record datetime : Type := mkDatetime {
  year : Z; month : Z; day : Z;
  hour : Z; minute : Z; second : Z; microsecond : Z
}.

Module Datetime.

(** [datetime(y, m, d)] *)
Definition ymd (y m d : Z) : datetime := mkDatetime y m d 0 0 0 0.

Definition fields (t : datetime) : list Z :=
  [year t; month t; day t; hour t; minute t; second t; microsecond t].

(** Timestamps compare as the tuples of their fields. *)
Fixpoint lex (a b : list Z) : comparison :=
  match a, b with
  | [], [] => Eq
  | [], _ :: _ => Lt
  | _ :: _, [] => Gt
  | x :: a', y :: b' =>
      match x ?= y with
      | Eq => lex a' b'
      | c => c
      end
  end.

Definition cmp (s t : datetime) : comparison := lex (fields s) (fields t).

(** [s < t], [s > t], [s <= t] *)
Definition ltb (s t : datetime) : bool :=
  match cmp s t with Lt => true | _ => false end.
Definition gtb (s t : datetime) : bool := ltb t s.
Definition leb (s t : datetime) : bool :=
  match cmp s t with Gt => false | _ => true end.

(** The proleptic Gregorian ordinal of a date, as in the standard
    library's [datetime] module. *)
Definition is_leap (y : Z) : bool :=
  (y mod 4 =? 0) && (negb (y mod 100 =? 0) || (y mod 400 =? 0)).

Definition days_before_year (y : Z) : Z :=
  let y' := y - 1 in
  y' * 365 + y' / 4 - y' / 100 + y' / 400.

Definition DAYS_BEFORE_MONTH : list Z :=
  [-1; 0; 31; 59; 90; 120; 151; 181; 212; 243; 273; 304; 334].

Definition days_before_month (y m : Z) : Z :=
  nth (Z.to_nat m) DAYS_BEFORE_MONTH 0
  + (if (2 <? m) && is_leap y then 1 else 0).

Definition ymd2ord (y m d : Z) : Z :=
  days_before_year y + days_before_month y m + d.

(** The ordinal of the Monday that starts ISO week 1 of year [y]. *)
Definition isoweek1monday (y : Z) : Z :=
  let firstday := ymd2ord y 1 1 in
  let firstweekday := (firstday + 6) mod 7 in
  let week1monday := firstday - firstweekday in
  if 3 <? firstweekday then week1monday + 7 else week1monday.

(** [t.isocalendar()]: the triple (ISO year, ISO week, ISO weekday). *)
Definition isocalendar (t : datetime) : Z * Z * Z :=
  let y := year t in
  let week1monday := isoweek1monday y in
  let today := ymd2ord (year t) (month t) (day t) in
  let week := (today - week1monday) / 7 in
  let wday := (today - week1monday) mod 7 in
  if week <? 0 then
    let y := y - 1 in
    let week1monday := isoweek1monday y in
    let week := (today - week1monday) / 7 in
    let wday := (today - week1monday) mod 7 in
    (y, week + 1, wday + 1)
  else if 52 <=? week then
    if isoweek1monday (y + 1) <=? today
    then (y + 1, 0 + 1, wday + 1)
    else (y, week + 1, wday + 1)
  else (y, week + 1, wday + 1).

Definition iso_year (t : datetime) : Z := (isocalendar t).1.1.
Definition iso_week (t : datetime) : Z := (isocalendar t).1.2.

(** [t.strftime("%Y-%m-%d")], for the years from 1000 on that the adapters
    and the clock give; below, [%Y] of the C library does not pad. *)
Definition strftime_ymd (t : datetime) : string :=
  PyStr.zfill 4 (year t) +:+ "-" +:+ PyStr.zfill 2 (month t)
    +:+ "-" +:+ PyStr.zfill 2 (day t).

Definition strftime_hms (t : datetime) : string :=
  PyStr.zfill 2 (hour t) +:+ ":" +:+ PyStr.zfill 2 (minute t)
    +:+ ":" +:+ PyStr.zfill 2 (second t).

(** [t.strftime("%Y-%m-%d %H:%M:%S UTC")] *)
Definition strftime_utc (t : datetime) : string :=
  strftime_ymd t +:+ " " +:+ strftime_hms t +:+ " UTC".

(** [t.isoformat()] *)
Definition isoformat (t : datetime) : string :=
  strftime_ymd t +:+ "T" +:+ strftime_hms t
    +:+ (if microsecond t =? 0 then ""
         else "." +:+ PyStr.zfill 6 (microsecond t)).

(** The default the date sort uses for a missing date. *)
Definition epoch : datetime := ymd 1970 1 1.

End Datetime.

(** ** The paper record *)

(** A paper dictionary.  [D] is the representation of [published_date]:
    a [datetime] for a paper produced by a source adapter, a string for a
    paper read from a JSON file.  Title and abstract are strings, as both
    adapters produce them.  A key that is missing and a key bound to [None]
    are both [None]; [paper.get(k)] cannot tell them apart. *)
Record Paper_ (D : Type) : Type := mkPaper {
  paper_id : option string;
  paper_title : string;
  paper_authors : list string;
  paper_affiliations : list string;
  paper_summary : string;
  paper_link : string;
  published_date : option D;
  paper_categories : list string;
  paper_conference : option string;
  paper_conference_year : option Z;
  paper_track : option string;
  paper_source : string
}.

Arguments mkPaper {D}.
Arguments paper_id {D}.
Arguments paper_title {D}.
Arguments paper_authors {D}.
Arguments paper_affiliations {D}.
Arguments paper_summary {D}.
Arguments paper_link {D}.
Arguments published_date {D}.
Arguments paper_categories {D}.
Arguments paper_conference {D}.
Arguments paper_conference_year {D}.
Arguments paper_track {D}.
Arguments paper_source {D}.

(** The papers of the pipeline carry timestamps. *)
Abbreviation Paper := (Paper_ datetime).

(** Truthiness of an optional string ([None] and [""] are falsy) and of an
    optional integer ([None] and [0] are falsy). *)
Definition truthy_opt (o : option string) : bool :=
  match o with Some s => PyStr.truthy s | None => false end.

Definition truthy_int (o : option Z) : bool :=
  match o with Some n => negb (n =? 0) | None => false end.

(** ** [paper_filter.py] *)

Section PaperFilter.
Context {D : Type}.
Implicit Types (paper : Paper_ D) (papers filtered : list (Paper_ D)).

(** The text a keyword is searched in: title, a blank and the abstract,
    lower-cased, punctuation blanked. *)
Definition text_clean paper : string :=
  let text := PyStr.lower (paper_title paper +:+ " " +:+ paper_summary paper) in
  PyStr.sub_nonword text.

(** [[kw.strip().lower() for kw in keywords if kw.strip()]] *)
Definition prepare_keywords (keywords : list string) : list string :=
  (λ kw, PyStr.lower (PyStr.strip kw))
    <$> List.filter (λ kw, PyStr.truthy (PyStr.strip kw)) keywords.

(** One iteration of the loop of [filter_by_keywords]. *)
Definition keyword_step (keywords : list string) (match_type : string)
    filtered paper : list (Paper_ D) :=
  let text_clean := text_clean paper in
  if String.eqb match_type "any" then
    if existsb (λ kw, PyStr.contains kw text_clean) keywords
    then filtered ++ [paper] else filtered
  else if String.eqb match_type "all" then
    if forallb (λ kw, PyStr.contains kw text_clean) keywords
    then filtered ++ [paper] else filtered
  else filtered.

Definition filter_by_keywords papers (keywords : list string)
    (match_type : string) : list (Paper_ D) :=
  match keywords with
  | [] => papers
  | _ :: _ =>
      let keywords := prepare_keywords keywords in
      foldl (keyword_step keywords match_type) [] papers
  end.

(** The identity key of [deduplicate_papers]: the [id] if it is truthy,
    otherwise the lower-cased, trimmed title. *)
Definition dedup_key paper : string :=
  if truthy_opt (paper_id paper)
  then default "" (paper_id paper)
  else PyStr.strip (PyStr.lower (paper_title paper)).

(** One iteration of the loop of [deduplicate_papers]; the loop state is
    the set [seen] and the list [deduplicated]. *)
Definition dedup_step (st : gset string * list (Paper_ D)) paper
    : gset string * list (Paper_ D) :=
  let '(seen, deduplicated) := st in
  let key := dedup_key paper in
  if PyStr.truthy key && negb (bool_decide (key ∈ seen))
  then ({[key]} ∪ seen, deduplicated ++ [paper])
  else (seen, deduplicated).

Definition deduplicate_papers papers : list (Paper_ D) :=
  (foldl dedup_step (∅, []) papers).2.

(** [papers[:limit]] for a non-negative [limit]. *)
Definition limit_papers papers (limit : nat) : list (Paper_ D) :=
  take limit papers.

End PaperFilter.

(** [sorted(xs, key=key, reverse=reverse)].  The result of a stable sort is
    determined by the input, so the stable insertion sort below returns
    what the library's sort returns.  [le] is [<=] on the keys; with
    [reverse] the order is descending and elements with equal keys still
    keep their input order. *)
Section Sorted.
Context {A K : Type} (key : A → K) (le : K → K → bool).

Definition goes_before (reverse : bool) (x y : A) : bool :=
  if reverse then le (key y) (key x) else le (key x) (key y).

Fixpoint insert_sorted (reverse : bool) (x : A) (l : list A) : list A :=
  match l with
  | [] => [x]
  | y :: r =>
      if goes_before reverse x y then x :: y :: r
      else y :: insert_sorted reverse x r
  end.

Definition sorted (reverse : bool) (l : list A) : list A :=
  foldr (insert_sorted reverse) [] l.

(** The order the result is sorted by. *)
Definition stands_before (reverse : bool) (x y : A) : Prop :=
  goes_before reverse x y = true.
End Sorted.

(** The sort key of the date order: [p.get('published_date') or epoch]. *)
Definition date_key (p : Paper) : datetime :=
  default Datetime.epoch (published_date p).

Definition sort_papers (papers : list Paper) (sort_by : string)
    (reverse : bool) : list Paper :=
  if String.eqb sort_by "date" then
    sorted date_key Datetime.leb reverse papers
  else if String.eqb sort_by "title" then
    sorted (λ p, PyStr.lower (paper_title p)) String.leb reverse papers
  else if String.eqb sort_by "authors" then
    sorted (λ p, PyStr.lower (PyStr.join ", " (paper_authors p)))
      String.leb reverse papers
  else papers.

(** One iteration of the loop of [filter_by_date]. *)
Definition date_step (min_date max_date : option datetime)
    (filtered : list Paper) (paper : Paper) : list Paper :=
  match published_date paper with
  | None => filtered
  | Some d =>
      let include := true in
      let include :=
        match min_date with
        | Some m => if Datetime.ltb d m then false else include
        | None => include
        end in
      let include :=
        match max_date with
        | Some M => if Datetime.gtb d M then false else include
        | None => include
        end in
      if include then filtered ++ [paper] else filtered
  end.

Definition filter_by_date (papers : list Paper)
    (min_date max_date : option datetime) : list Paper :=
  match min_date, max_date with
  | None, None => papers
  | _, _ => foldl (date_step min_date max_date) [] papers
  end.

(** ** [storage.py] *)

(** In memory a [published_date] is a [datetime] (a paper from an adapter)
    or a string (a paper loaded from a JSON file). *)
Inductive pydate : Type :=
  | PyDatetime (t : datetime)
  | PyText (s : string).

Abbreviation PyPaper := (Paper_ pydate).
Abbreviation JsonPaper := (Paper_ string).

Definition map_date {D E : Type} (f : D → E) (p : Paper_ D) : Paper_ E :=
  {| paper_id := paper_id p;
     paper_title := paper_title p;
     paper_authors := paper_authors p;
     paper_affiliations := paper_affiliations p;
     paper_summary := paper_summary p;
     paper_link := paper_link p;
     published_date := f <$> published_date p;
     paper_categories := paper_categories p;
     paper_conference := paper_conference p;
     paper_conference_year := paper_conference_year p;
     paper_track := paper_track p;
     paper_source := paper_source p |}.

(** [_json_serializer]: a [datetime] is written as its ISO-8601 text. *)
Definition json_serializer (d : pydate) : string :=
  match d with
  | PyDatetime t => Datetime.isoformat t
  | PyText s => s
  end.

(** [json.dump] and [json.load] on one paper. *)
Definition to_json : PyPaper → JsonPaper := map_date json_serializer.
Definition of_json : JsonPaper → PyPaper := map_date PyText.

(** A paper of the pipeline as a dictionary handed to the storage layer. *)
Definition of_adapter : Paper → PyPaper := map_date PyDatetime.

(** What a path can hold: bytes that are not JSON, a JSON document that is
    not an array, or an array of papers. *)
Inductive file_content : Type :=
  | NotJson
  | JsonOther
  | JsonPapers (ps : list JsonPaper).

(** The files on disk, and which paths the environment lets the process
    write (a write to any other path raises and is caught).  [writable]
    stands for the whole write: the directory can be made, the file opened
    and the document dumped.  A write that breaks off after the file is
    opened, which leaves a cut file, is outside this model. *)
Record filesystem : Type := mkFS {
  files : gmap string file_content;
  writable : string → bool
}.

Definition write_file (filepath : string) (c : file_content)
    (fs : filesystem) : filesystem :=
  {| files := <[filepath := c]> (files fs); writable := writable fs |}.

Definition save_papers (papers : list PyPaper) (filepath : string)
    (fs : filesystem) : filesystem * bool :=
  if writable fs filepath
  then (write_file filepath (JsonPapers (to_json <$> papers)) fs, true)
  else (fs, false).

Definition load_papers (filepath : string) (fs : filesystem) : list PyPaper :=
  match files fs !! filepath with
  | None => []
  | Some NotJson => []
  | Some JsonOther => []
  | Some (JsonPapers ps) => of_json <$> ps
  end.

(** [{p.get('id') for p in existing if p.get('id')}] and the same for the
    titles. *)
Definition truthy_id (p : PyPaper) : option string :=
  if truthy_opt (paper_id p) then paper_id p else None.

Definition truthy_title (p : PyPaper) : option string :=
  if PyStr.truthy (paper_title p) then Some (paper_title p) else None.

Definition seen_ids_of (existing : list PyPaper) : gset string :=
  list_to_set (omap truthy_id existing).

Definition seen_titles_of (existing : list PyPaper) : gset string :=
  list_to_set (omap truthy_title existing).

(** The loop state of [append_papers]. *)
Record append_state : Type := mkAppend {
  existing : list PyPaper;
  seen_ids : gset string;
  seen_titles : gset string
}.

(** [paper_id and paper_id in seen_ids] *)
Definition id_seen (st : append_state) (paper : PyPaper) : bool :=
  match paper_id paper with
  | Some i => PyStr.truthy i && bool_decide (i ∈ seen_ids st)
  | None => false
  end.

(** [paper_title and paper_title in seen_titles] *)
Definition title_seen (st : append_state) (paper : PyPaper) : bool :=
  PyStr.truthy (paper_title paper)
  && bool_decide (paper_title paper ∈ seen_titles st).

(** One iteration of the loop of [append_papers]. *)
Definition append_step (st : append_state) (paper : PyPaper) : append_state :=
  if id_seen st paper || title_seen st paper then st
  else
    {| existing := existing st ++ [paper];
       seen_ids :=
         match paper_id paper with
         | Some i =>
             if PyStr.truthy i then {[i]} ∪ seen_ids st else seen_ids st
         | None => seen_ids st
         end;
       seen_titles :=
         if PyStr.truthy (paper_title paper)
         then {[paper_title paper]} ∪ seen_titles st
         else seen_titles st |}.

Definition append_loop (existing0 : list PyPaper) (papers : list PyPaper)
    : append_state :=
  foldl append_step
    (mkAppend existing0 (seen_ids_of existing0) (seen_titles_of existing0))
    papers.

Definition append_papers (papers : list PyPaper) (filepath : string)
    (fs : filesystem) : filesystem * bool :=
  let existing0 := load_papers filepath fs in
  let st := append_loop existing0 papers in
  save_papers (existing st) filepath fs.

(** [os.path.join(a, b)] on POSIX paths. *)
Definition path_join (a b : string) : string :=
  if PyStr.startswith b "/" then b
  else if negb (PyStr.truthy a) || PyStr.endswith_slash a then a +:+ b
  else a +:+ "/" +:+ b.

(** The bucket file of a run date: [weekly/YYYY/week_XX.json] with the week
    number [date.isocalendar()[1]] and the year [date.year]. *)
Definition weekly_filepath (weekly_dir : string) (date : datetime) : string :=
  let week_number := Datetime.iso_week date in
  let year := year date in
  let week_dir := path_join weekly_dir (PyStr.str_Z year) in
  let filename := "week_" +:+ PyStr.zfill 2 week_number +:+ ".json" in
  path_join week_dir filename.

(** [date] defaults to the clock's [now]. *)
Definition save_weekly_papers (papers : list PyPaper) (weekly_dir : string)
    (date : option datetime) (now : datetime) (fs : filesystem)
    : filesystem * bool :=
  let date := default now date in
  append_papers papers (weekly_filepath weekly_dir date) fs.

Definition load_weekly_papers (weekly_dir : string)
    (date : option datetime) (now : datetime) (fs : filesystem)
    : list PyPaper :=
  let date := default now date in
  load_papers (weekly_filepath weekly_dir date) fs.

(** ** [readme_generator.py] *)

Module Readme.

Definition nl : string := String "010" "".

(** [', '.join(xs[:k])], with [' et al.'] when more than [k] are given. *)
Definition name_list (k : nat) (xs : list string) : string :=
  let shown := PyStr.join ", " (take k xs) in
  if (k <? length xs)%nat then shown +:+ " et al." else shown.

(** The entry of one paper in the Latest-News section; [i] counts from 1. *)
Definition latest_entry (i : nat) (paper : Paper) : string :=
  let section :=
    "### " +:+ PyStr.str_N (N.of_nat i) +:+ ". " +:+ paper_title paper
      +:+ nl +:+ nl in
  let section :=
    match paper_authors paper with
    | [] => section
    | authors => section +:+ "**Authors:** " +:+ name_list 5 authors
                   +:+ nl +:+ nl
    end in
  let section :=
    match paper_affiliations paper with
    | [] => section
    | affiliations => section +:+ "**Affiliations:** "
                        +:+ name_list 3 affiliations +:+ nl +:+ nl
    end in
  let section :=
    match published_date paper with
    | None => section
    | Some d => section +:+ "**Published:** " +:+ Datetime.strftime_ymd d
                  +:+ nl +:+ nl
    end in
  let section :=
    if truthy_opt (paper_conference paper) then
      let section :=
        section +:+ "**Conference:** " +:+ default "" (paper_conference paper)
          +:+ nl +:+ nl in
      let section :=
        if truthy_int (paper_conference_year paper)
        then section +:+ "**Year:** "
               +:+ PyStr.str_Z (default 0 (paper_conference_year paper))
               +:+ nl +:+ nl
        else section in
      if truthy_opt (paper_track paper)
      then section +:+ "**Track:** " +:+ default "" (paper_track paper)
             +:+ nl +:+ nl
      else section
    else
      match paper_categories paper with
      | [] => section
      | categories => section +:+ "**Categories:** "
                        +:+ PyStr.join ", " categories +:+ nl +:+ nl
      end in
  let section :=
    if PyStr.truthy (paper_link paper)
    then section +:+ "**[Read Paper](" +:+ paper_link paper +:+ ")**"
           +:+ nl +:+ nl
    else section in
  let section :=
    if PyStr.truthy (paper_summary paper)
    then section +:+ paper_summary paper +:+ nl +:+ nl
    else section in
  section +:+ "---" +:+ nl +:+ nl.

(** The loop over [enumerate(papers, 1)]: the state is the text so far
    and the next index. *)
Definition latest_step (st : string * nat) (paper : Paper) : string * nat :=
  let '(section, i) := st in
  (section +:+ latest_entry i paper, S i).

Definition generate_latest_news_section (papers : list Paper) : string :=
  let section := nl +:+ "## Latest News" +:+ nl +:+ nl in
  match papers with
  | [] =>
      section +:+ "*No new papers matching your keywords found today.*"
        +:+ nl +:+ nl
  | _ :: _ =>
      let section :=
        section +:+ "*" +:+ PyStr.str_N (N.of_nat (length papers))
          +:+ " papers found matching your keywords.*" +:+ nl +:+ nl in
      (foldl latest_step (section, 1%nat) papers).1
  end.

Definition daily_entry (paper : Paper) : string :=
  let section := "### 🌟 " +:+ paper_title paper +:+ nl +:+ nl in
  let section :=
    match paper_authors paper with
    | [] => section
    | authors => section +:+ "**Authors:** " +:+ name_list 3 authors
                   +:+ nl +:+ nl
    end in
  let section :=
    if truthy_opt (paper_conference paper)
    then section +:+ "**Conference:** " +:+ default "" (paper_conference paper)
           +:+ nl +:+ nl
    else section in
  let section :=
    if PyStr.truthy (paper_link paper)
    then section +:+ "**[Read Paper](" +:+ paper_link paper +:+ ")**"
           +:+ nl +:+ nl
    else section in
  if PyStr.truthy (paper_summary paper)
  then section +:+ paper_summary paper +:+ nl +:+ nl
  else section.

Definition generate_daily_recommendation_section (papers : list Paper)
    : string :=
  let section := nl +:+ "## Daily Recommendation" +:+ nl +:+ nl in
  match papers with
  | [] => section +:+ "*No daily recommendation available.*" +:+ nl +:+ nl
  | _ :: _ =>
      let section :=
        foldl (λ section paper, section +:+ daily_entry paper)
          section papers in
      section +:+ "---" +:+ nl +:+ nl
  end.

(** [today] is the clock's reading inside the section generator. *)
Definition generate_weekly_summary_section (summary : string)
    (now : datetime) : string :=
  let section := nl +:+ "## Weekly Summary" +:+ nl +:+ nl in
  let today := Datetime.strftime_ymd now in
  let section := section +:+ "*Week ending " +:+ today +:+ "*" +:+ nl +:+ nl in
  let section := section +:+ "---" +:+ nl +:+ nl in
  let section := section +:+ summary in
  section +:+ nl +:+ nl +:+ "---" +:+ nl +:+ nl.

(** The value of [last_updated] after its default is filled in. *)
Definition effective_last_updated (last_updated : option string)
    (now : datetime) : string :=
  match last_updated with
  | None => Datetime.strftime_utc now
  | Some s => s
  end.

Definition header_parts (last_updated : string) : list string :=
  [ "# PaperPostman" +:+ nl;
    "> Automatically curated research papers from arXiv and papers.cool" +:+ nl;
    nl +:+ "**Last Updated:** " +:+ last_updated +:+ nl;
    "---" +:+ nl ].

Definition footer_parts : list string :=
  [ nl +:+ "---" +:+ nl;
    nl +:+ "*This repository is automatically maintained by PaperPostman.*"
      +:+ nl;
    "*Archived READMEs can be found in the [archive/](archive/) directory.*"
      +:+ nl ].

(** [generate_readme]; the list [readme_parts] grows by appends and is
    joined at the end. *)
Definition generate_readme (latest_papers daily_recommendations : list Paper)
    (weekly_summary : string) (last_updated : option string)
    (now : datetime) : string :=
  let last_updated := effective_last_updated last_updated now in
  let readme_parts := [] in
  let readme_parts := readme_parts ++ header_parts last_updated in
  let readme_parts :=
    readme_parts ++ [generate_latest_news_section latest_papers] in
  let readme_parts :=
    readme_parts
      ++ [generate_daily_recommendation_section daily_recommendations] in
  let readme_parts :=
    if PyStr.truthy weekly_summary && PyStr.truthy (PyStr.strip weekly_summary)
    then readme_parts ++ [generate_weekly_summary_section weekly_summary now]
    else readme_parts in
  let readme_parts := readme_parts ++ footer_parts in
  PyStr.concat readme_parts.

(** The sections around the paper sections, joined. *)
Definition header (last_updated : string) : string :=
  PyStr.concat (header_parts last_updated).

Definition footer : string := PyStr.concat footer_parts.






End Readme.

(** ** Where a substring cannot occur *)

Module Occurs.

(** [c] does not occur in [s]. *)
Fixpoint no_char (c : ascii) (s : string) : bool :=
  match s with
  | "" => true
  | String b r => negb (Ascii.eqb c b) && no_char c r
  end.



End Occurs.

(** ** The specification's readings, for comparison with the code *)

Section Readings.
Context {D : Type}.

(** Keyword matching on prepared keywords: some keyword ("any") or every
    keyword ("all") occurs in the cleaned text; no paper matches under
    any other match type. *)
Definition keyword_match (keywords : list string) (match_type : string)
    (paper : Paper_ D) : bool :=
  if String.eqb match_type "any"
  then existsb (λ kw, PyStr.contains kw (text_clean paper)) keywords
  else if String.eqb match_type "all"
  then forallb (λ kw, PyStr.contains kw (text_clean paper)) keywords
  else false.

(** The keyword filter read literally, with the keywords as given. *)
Definition filter_by_keywords_as_given (papers : list (Paper_ D))
    (keywords : list string) (match_type : string) : list (Paper_ D) :=
  match keywords with
  | [] => papers
  | _ :: _ => List.filter (keyword_match keywords match_type) papers
  end.

(** First occurrences by identity key: the paper at a position is kept
    when its key is non-empty and no paper before it has the same key.
    [before] holds the papers already passed. *)
Fixpoint first_by_key (before papers : list (Paper_ D)) : list (Paper_ D) :=
  match papers with
  | [] => []
  | p :: r =>
      if PyStr.truthy (dedup_key p)
         && negb (bool_decide (dedup_key p ∈ (dedup_key <$> before)))
      then p :: first_by_key (before ++ [p]) r
      else first_by_key (before ++ [p]) r
  end.
End Readings.

(** The inclusive range test of the date filter. *)
Definition in_date_range (min_date max_date : option datetime)
    (paper : Paper) : bool :=
  match published_date paper with
  | None => false
  | Some d =>
      match min_date with Some m => Datetime.leb m d | None => true end
      && match max_date with Some M => Datetime.leb d M | None => true end
  end.

(** The date order read literally: in the sorted list every paper without
    a [published_date] stands after every paper that has one. *)
Definition undated_after_dated (out : list Paper) : Prop :=
  ∀ (i j : nat) (p q : Paper),
    out !! i = Some p → out !! j = Some q →
    published_date p = None → is_Some (published_date q) → (j < i)%nat.

(** A stored paper rejects a new one when they share a truthy [id] or a
    truthy [title], compared as they are. *)
Definition same_id (q p : PyPaper) : bool :=
  truthy_opt (paper_id p) && bool_decide (paper_id q = paper_id p).

Definition same_title (q p : PyPaper) : bool :=
  PyStr.truthy (paper_title p) && bool_decide (paper_title q = paper_title p).

Definition rejected_by (stored : list PyPaper) (p : PyPaper) : bool :=
  existsb (λ q, same_id q p || same_title q p) stored.

(** The new papers the accumulator appends: those not rejected by what the
    bucket holds when their turn comes. *)
Fixpoint accepted (stored papers : list PyPaper) : list PyPaper :=
  match papers with
  | [] => []
  | p :: r =>
      if rejected_by stored p then accepted stored r
      else p :: accepted (stored ++ [p]) r
  end.

(** What a bucket file holds, as stored: nothing when the file is absent
    or unreadable. *)
Definition stored_papers (filepath : string) (fs : filesystem)
    : list JsonPaper :=
  match files fs !! filepath with
  | Some (JsonPapers ps) => ps
  | _ => []
  end.

(** The sets of the accumulator's loop describe the list it has built. *)
Definition append_inv (st : append_state) : Prop :=
  seen_ids st = seen_ids_of (existing st)
  ∧ seen_titles st = seen_titles_of (existing st).

(** ** Sample papers *)

(** A disk without files on which every write succeeds. *)
Definition empty_fs : filesystem := mkFS ∅ (λ _, true).


Definition arxiv_paper (i title summary : string) (date : option datetime)
    : Paper :=
  mkPaper (Some i) title ["Author A"; "Author B"] [] summary
    ("http://arxiv.org/abs/" +:+ i) date ["cs.AI"] None None None "arxiv".

(** A scraped paper: no [id], no date. *)
Definition scraped_paper (title summary : string) : Paper :=
  mkPaper None title ["Author C"] [] summary "" None []
    (Some "NeurIPS.2025") (Some 2025) None "paperscool".

Definition attention : Paper :=
  arxiv_paper "2301.001" "Attention Is All You Need"
    "This paper introduces the Transformer architecture for attention."
    (Some (Datetime.ymd 2023 1 5)).

Definition survey : Paper :=
  arxiv_paper "2301.002" "A Survey of Machine Learning"
    "This paper surveys recent advances in ML."
    (Some (Datetime.ymd 2023 1 3)).

(** A paper dated before 1970. *)
Definition early_paper : Paper :=
  arxiv_paper "6912.001" "Notes on Time Sharing"
    "A report written in the sixties." (Some (Datetime.ymd 1969 12 31)).

(** A scraped entry whose link gave no [id] and whose title is empty. *)
Definition untitled : Paper := scraped_paper "" "An abstract without a title.".

Definition undated : Paper := scraped_paper "No Date Given" "A scraped paper.".

(** A disk that holds one bucket file with one paper. *)
Definition week_01 : string := "data/weekly/2025/week_01.json".

Definition bucket_fs : filesystem :=
  mkFS {[ week_01 := JsonPapers [to_json (of_adapter attention)] ]}
       (λ _, true).

Definition deep_learning : PyPaper :=
  of_adapter (scraped_paper "Deep Learning" "A first abstract.").

Definition deep_learning_lower : PyPaper :=
  of_adapter (scraped_paper "  deep learning " "A second abstract.").

(* ===================================================================== *)
(** * Part I, continued: the rest of the modules                          *)
(* ===================================================================== *)

(** ** More sequence primitives *)

Module PySeq.

(** The position a slice bound [i] denotes in a sequence of length [len]:
    a negative bound counts from the end, and bounds are clipped. *)
Definition adjust_index (len i : Z) : Z :=
  if i <? 0 then Z.max (i + len) 0 else Z.min i len.

(** [l[start:stop]] on a list. *)
Definition slice {A : Type} (start stop : Z) (l : list A) : list A :=
  let len := Z.of_nat (length l) in
  let a := adjust_index len start in
  let b := adjust_index len stop in
  take (Z.to_nat (b - a)) (drop (Z.to_nat a) l).

(** [s[start:stop]] on a string. *)
Definition slice_str (start stop : Z) (s : string) : string :=
  let len := Z.of_nat (String.length s) in
  let a := adjust_index len start in
  let b := adjust_index len stop in
  String.substring (Z.to_nat a) (Z.to_nat (b - a)) s.

(** [s.endswith(suf)] *)
Fixpoint endswith (s suf : string) : bool :=
  String.eqb s suf
  || match s with
     | "" => false
     | String _ r => endswith r suf
     end.

(** [s.split(sep)] for a separator of one character. *)
Fixpoint split_char (sep : ascii) (s : string) : list string :=
  match s with
  | "" => [""]
  | String c r =>
      if Ascii.eqb c sep then "" :: split_char sep r
      else
        match split_char sep r with
        | [] => [String c ""]
        | w :: ws => String c w :: ws
        end
  end.

(** [s.count(sub)]: the occurrences of [sub] found from left to right
    without overlap; [skip] characters of the last occurrence are still to
    be passed.  For the empty [sub] Python counts every gap. *)
Fixpoint count_from (sub : string) (skip : nat) (s : string) : nat :=
  match s with
  | "" => 0
  | String _ r =>
      match skip with
      | S k => count_from sub k r
      | O =>
          if PyStr.startswith s sub
          then S (count_from sub (String.length sub - 1) r)
          else count_from sub 0 r
      end
  end.

Definition count (s sub : string) : nat :=
  match sub with
  | "" => S (String.length s)
  | String _ _ => count_from sub 0 s
  end.

End PySeq.

(** ** [paper_filter.py], the other filters *)

Section MoreFilters.
Context {D : Type}.
Implicit Types (paper : Paper_ D) (papers filtered : list (Paper_ D)).

(** [set(cat.lower() for cat in categories)] *)
Definition lower_set (names : list string) : gset string :=
  list_to_set (PyStr.lower <$> names).

(** One iteration of the loop of [filter_by_categories]. *)
Definition category_step (categories_set : gset string) filtered paper
    : list (Paper_ D) :=
  let paper_categories := paper_categories paper in
  if existsb (λ cat, bool_decide (PyStr.lower cat ∈ categories_set))
       paper_categories
  then filtered ++ [paper] else filtered.

Definition filter_by_categories papers (categories : list string)
    : list (Paper_ D) :=
  match categories with
  | [] => papers
  | _ :: _ =>
      let categories_set := lower_set categories in
      foldl (category_step categories_set) [] papers
  end.

(** One iteration of the loop of [filter_by_conference];
    [paper.get('conference', '')] is falsy when the key is missing, [None]
    or empty. *)
Definition conference_step (conferences_set : gset string) filtered paper
    : list (Paper_ D) :=
  match paper_conference paper with
  | Some conference =>
      if PyStr.truthy conference
         && bool_decide (PyStr.lower conference ∈ conferences_set)
      then filtered ++ [paper] else filtered
  | None => filtered
  end.

Definition filter_by_conference papers (conferences : list string)
    : list (Paper_ D) :=
  match conferences with
  | [] => papers
  | _ :: _ =>
      let conferences_set := lower_set conferences in
      foldl (conference_step conferences_set) [] papers
  end.

(** [limit_papers] for any integer [limit]: the slice [papers[:limit]]. *)
Definition limit_papers_slice papers (limit : Z) : list (Paper_ D) :=
  PySeq.slice 0 limit papers.

(** One iteration of the loop of [get_keyword_match_score]. *)
Definition score_step paper (score : nat) (kw : string) : nat :=
  let title := PyStr.lower (paper_title paper) in
  let score := (score + PySeq.count title kw * 3)%nat in
  (score + PySeq.count (text_clean paper) kw)%nat.

Definition get_keyword_match_score paper (keywords : list string) : nat :=
  match keywords with
  | [] => 0%nat
  | _ :: _ =>
      let keywords := prepare_keywords keywords in
      foldl (score_step paper) 0%nat keywords
  end.

(** [rank_by_keyword_match]: the pairs (paper, score) are sorted by score,
    highest first, and the papers are read off. *)
Definition rank_by_keyword_match papers (keywords : list string)
    : list (Paper_ D) :=
  let scored :=
    (λ paper, (paper, get_keyword_match_score paper keywords)) <$> papers in
  let scored := sorted snd Nat.leb true scored in
  fst <$> scored.

End MoreFilters.

(** Timestamps can be compared for equality. *)
Global Instance datetime_eq_dec : EqDecision datetime.
Proof. solve_decision. Defined.

(** The three sort keys of [sort_papers]. *)
Definition title_key (p : Paper) : string := PyStr.lower (paper_title p).

Definition authors_key (p : Paper) : string :=
  PyStr.lower (PyStr.join ", " (paper_authors p)).

(** The pairs [rank_by_keyword_match] sorts. *)
Definition score_pair {D : Type} (keywords : list string) (paper : Paper_ D)
    : Paper_ D * nat :=
  (paper, get_keyword_match_score paper keywords).

(** ** [storage.py], the retention sweep *)

(** The age in weeks that the loop body of [clear_old_weekly_data] gives
    to the bucket file [week_<week_number>.json] of the directory [year]. *)
Definition weeks_ago (current_year current_week year week_number : Z) : Z :=
  let weeks_ago := 0 in
  if year =? current_year then current_week - week_number
  else if year <? current_year
  then (current_year - year) * 52 + current_week - week_number
  else weeks_ago.

(** The test before [week_file.unlink()], with the clock reading [now]. *)
Definition sweep_deletes (now : datetime) (max_weeks_to_keep : Z)
    (year_dir week_number : Z) : bool :=
  let current_week := Datetime.iso_week now in
  let current_year := year now in
  max_weeks_to_keep
    <? weeks_ago current_year current_week year_dir week_number.

(** ** [readme_generator.py], the helpers *)


(** [format_date(date)] *)
Definition format_date (date : option datetime) : string :=
  match date with
  | None => "N/A"
  | Some d => Datetime.strftime_ymd d
  end.

(** [random.sample(population, k)]: [None] stands for the [ValueError]
    raised when [k] is negative or exceeds the population; otherwise the
    elements at the positions [draw] the generator chose. *)
Definition sample {A : Type} (population : list A) (k : Z) (draw : list nat)
    : option (list A) :=
  if (k <? 0) || (Z.of_nat (length population) <? k) then None
  else Some (omap (λ i, population !! i) draw).

(** What the generator may choose for [k] of [n] elements: [k] distinct
    positions below [n]. *)
Definition valid_draw (n : nat) (k : Z) (draw : list nat) : Prop :=
  Z.of_nat (length draw) = k ∧ NoDup draw ∧ Forall (λ i, (i < n)%nat) draw.

(** The pool [select_random_recommendations] draws from. *)
Definition source_pool (papers : list Paper) (source : string) : list Paper :=
  if String.eqb source "conferences"
  then List.filter (λ p, truthy_opt (paper_conference p)) papers
  else if String.eqb source "arxiv"
  then List.filter (λ p, negb (truthy_opt (paper_conference p))) papers
  else papers.

Definition select_random_recommendations (papers : list Paper) (count : Z)
    (source : string) (draw : list nat) : option (list Paper) :=
  let filtered := source_pool papers source in
  match filtered with
  | [] => Some []
  | _ :: _ =>
      let count := Z.min count (Z.of_nat (length filtered)) in
      sample filtered count draw
  end.

(** ** [llm_summarizer.py]: the summary day *)

(** [t.weekday()] and [t.strftime("%A")] in the C locale. *)
Definition DAYNAMES : list string :=
  ["Monday"; "Tuesday"; "Wednesday"; "Thursday"; "Friday"; "Saturday";
   "Sunday"].

Definition weekday (t : datetime) : Z :=
  (Datetime.ymd2ord (year t) (month t) (day t) + 6) mod 7.

Definition strftime_A (t : datetime) : string :=
  nth (Z.to_nat (weekday t)) DAYNAMES "".

Definition is_summary_day (day_name : string) (now : datetime) : bool :=
  let current_day := strftime_A now in
  String.eqb (PyStr.lower current_day) (PyStr.lower day_name).

(** The ISO weekday of [isocalendar], Monday being 1. *)
Definition iso_weekday (t : datetime) : Z := (Datetime.isocalendar t).2.

(** ** [arxiv_fetcher.py]: the identifier of an entry *)

(** [arxiv_url.split("/")[-1].split("v")[0]] *)
Definition arxiv_id_of (arxiv_url : string) : string :=
  let last_part := default "" (last (PySeq.split_char "/" arxiv_url)) in
  default "" (head (PySeq.split_char "v" last_part)).

(** ** [main.py] *)

Inductive scalar : Type :=
  | SInt (n : Z)
  | SBool (b : bool)
  | SFloat (repr : string)
  | SNone.

(** A configuration value as the YAML loader returns it.  The induction
    principle for this nested type is proved in Part III. *)
Local Unset Elimination Schemes.
Inductive config_value : Type :=
  | VDict (items : list (string * config_value))
  | VList (items : list config_value)
  | VStr (s : string)
  | VScalar (v : scalar).
Local Set Elimination Schemes.

(** A string of the form [${NAME}]. *)
Definition is_reference (s : string) : bool :=
  PyStr.startswith s "${" && PySeq.endswith s "}".

(** [_resolve_env_vars(config)] under the process environment [environ]. *)
Fixpoint resolve_env_vars (environ : gmap string string)
    (config : config_value) : config_value :=
  match config with
  | VDict items =>
      VDict (List.map (λ kv, (kv.1, resolve_env_vars environ kv.2)) items)
  | VList items => VList (List.map (resolve_env_vars environ) items)
  | VStr s =>
      if is_reference s then
        let env_var := PySeq.slice_str 2 (-1) s in
        VStr (default s (environ !! env_var))
      else VStr s
  | VScalar v => VScalar v
  end.

(** Steps 3 and 4 of [main]: the papers of the Latest-News section and
    those kept for the weekly bucket; the conference papers kept for the
    recommendation. *)
Definition arxiv_filtered_of (arxiv_papers : list Paper)
    (keywords : list string) : list Paper :=
  let arxiv_filtered := filter_by_keywords arxiv_papers keywords "any" in
  let arxiv_filtered := deduplicate_papers arxiv_filtered in
  sort_papers arxiv_filtered "date" true.

Definition latest_papers_of (arxiv_papers : list Paper)
    (keywords : list string) (papers_per_day : Z) : list Paper :=
  limit_papers_slice (arxiv_filtered_of arxiv_papers keywords) papers_per_day.

Definition conference_filtered_of (conference_papers : list Paper)
    (keywords : list string) : list Paper :=
  let conference_filtered :=
    filter_by_keywords conference_papers keywords "any" in
  deduplicate_papers conference_filtered.

(** ** Decimal numerals *)

Module Numeral.

(** [s] consists of decimal digits. *)
Fixpoint digits_only (s : string) : bool :=
  match s with
  | "" => true
  | String c r =>
      ((48 <=? PyStr.code c) && (PyStr.code c <=? 57))%N && digits_only r
  end.

(** The number a string of digits denotes, if it is one. *)
Definition value (s : string) : option N :=
  N.of_uint <$> NilEmpty.uint_of_string s.

End Numeral.

(* ===================================================================== *)
(** * Part II: properties                                                 *)
(* ===================================================================== *)

(** ** Loops that collect the elements passing a test *)

Lemma foldl_collect {A : Type} (f : A → bool) (l acc : list A) :
  foldl (λ acc x, if f x then acc ++ [x] else acc) acc l
  = acc ++ List.filter f l.
Proof.
  revert acc. induction l as [|x l IH]; intros acc; simpl.
  - by rewrite app_nil_r.
  - rewrite IH. destruct (f x); [|done]. by rewrite <- app_assoc.
Qed.

Lemma foldl_ext_step {A B : Type} (f g : B → A → B) (l : list A) (b : B) :
  (∀ b x, f b x = g b x) → foldl f b l = foldl g b l.
Proof.
  intros Hfg. revert b. induction l as [|x l IH]; intros b; simpl; [done|].
  by rewrite Hfg, IH.
Qed.

(** ** The order on timestamps *)

Module DatetimeFacts.
Import Datetime.

Lemma lex_opp (a b : list Z) : lex b a = CompOpp (lex a b).
Proof.
  revert b. induction a as [|x a IH]; intros [|y b]; simpl; try done.
  rewrite (Z.compare_antisym x y).
  destruct (x ?= y); simpl; auto.
Qed.

Lemma lex_le_trans (a b c : list Z) :
  lex a b ≠ Gt → lex b c ≠ Gt → lex a c ≠ Gt.
Proof.
  revert b c. induction a as [|x a IH]; intros [|y b] [|z c]; simpl;
    try done.
  destruct (Z.compare_spec x y), (Z.compare_spec y z), (Z.compare_spec x z);
    intros Hab Hbc; try done; try lia; eauto.
Qed.

Lemma ltb_negb_leb (s t : datetime) : ltb s t = negb (leb t s).
Proof.
  unfold ltb, leb, cmp. rewrite (lex_opp (fields s) (fields t)).
  by destruct (lex (fields s) (fields t)).
Qed.

Lemma gtb_negb_leb (s t : datetime) : gtb s t = negb (leb s t).
Proof. unfold gtb. apply ltb_negb_leb. Qed.

Lemma leb_total (s t : datetime) : leb s t = false → leb t s = true.
Proof.
  unfold leb, cmp. rewrite (lex_opp (fields s) (fields t)).
  by destruct (lex (fields s) (fields t)).
Qed.

Lemma leb_trans (s t u : datetime) :
  leb s t = true → leb t u = true → leb s u = true.
Proof.
  unfold leb, cmp. intros Hst Htu.
  pose proof (lex_le_trans (fields s) (fields t) (fields u)) as H.
  destruct (lex (fields s) (fields t)), (lex (fields t) (fields u)),
    (lex (fields s) (fields u)); try done; exfalso; by apply H.
Qed.
End DatetimeFacts.

(** ** The weekly bucket *)

(** C1 (the code departs from the claim).  The bucket file is named after
    the ISO week number and the calendar year of the run date, not the ISO
    year.  The runs of 2024-12-30 and 2025-01-02 both fall in ISO week 1 of
    ISO year 2025, yet the first uses [2024/week_01.json] and the second
    [2025/week_01.json]: what the first run saves, the second does not
    load. *)
Theorem weekly_bucket_splits_iso_week :
  let d1 := Datetime.ymd 2024 12 30 in
  let d2 := Datetime.ymd 2025 1 2 in
  (Datetime.iso_year d1, Datetime.iso_week d1) = (2025, 1)
  ∧ (Datetime.iso_year d2, Datetime.iso_week d2) = (2025, 1)
  ∧ weekly_filepath "data/weekly" d1 = "data/weekly/2024/week_01.json"
  ∧ weekly_filepath "data/weekly" d2 = "data/weekly/2025/week_01.json"
  ∧ ∀ papers now fs,
      load_weekly_papers "data/weekly" (Some d2) now
        (save_weekly_papers papers "data/weekly" (Some d1) now fs).1
      = load_weekly_papers "data/weekly" (Some d2) now fs.
Proof.
  intros d1 d2. repeat split; try (vm_compute; reflexivity).
  intros papers now fs.
  unfold load_weekly_papers, save_weekly_papers, append_papers, save_papers.
  simpl default.
  assert (weekly_filepath "data/weekly" d1 = "data/weekly/2024/week_01.json")
    as -> by (vm_compute; reflexivity).
  assert (weekly_filepath "data/weekly" d2 = "data/weekly/2025/week_01.json")
    as -> by (vm_compute; reflexivity).
  destruct (writable fs _); [|done].
  unfold load_papers, write_file; simpl.
  by rewrite lookup_insert_ne.
Qed.

(** ** The date filter *)

Lemma date_step_in_range (min_date max_date : option datetime)
    (filtered : list Paper) (paper : Paper) :
  date_step min_date max_date filtered paper
  = if in_date_range min_date max_date paper
    then filtered ++ [paper] else filtered.
Proof.
  unfold date_step, in_date_range.
  destruct (published_date paper) as [d|]; [|done].
  destruct min_date as [m|], max_date as [M|]; simpl;
    rewrite ?DatetimeFacts.ltb_negb_leb, ?DatetimeFacts.gtb_negb_leb;
    repeat match goal with |- context [Datetime.leb ?a ?b] =>
      destruct (Datetime.leb a b) end; done.
Qed.

(** C8.  [filter_by_date] returns its input when both bounds are absent;
    with a bound it keeps, in order, exactly the papers whose
    [published_date] is present and lies in the inclusive range, and a
    paper without a date is dropped, no error being raised. *)
Theorem filter_by_date_inclusive_range (papers : list Paper)
    (min_date max_date : option datetime) :
  filter_by_date papers min_date max_date
  = match min_date, max_date with
    | None, None => papers
    | _, _ => List.filter (in_date_range min_date max_date) papers
    end
  ∧ ∀ p, published_date p = None →
         in_date_range min_date max_date p = false.
Proof.
  split.
  - unfold filter_by_date.
    destruct min_date as [m|], max_date as [M|]; try done;
      (erewrite foldl_ext_step; [|apply date_step_in_range]);
      by rewrite foldl_collect.
  - intros p Hp. unfold in_date_range. by rewrite Hp.
Qed.

Lemma filter_by_date_inclusive_range_witness :
  filter_by_date [attention; undated; survey]
    (Some (Datetime.ymd 2023 1 5)) None = [attention]
  ∧ in_date_range (Some (Datetime.ymd 2023 1 5)) None undated = false.
Proof.
  destruct (filter_by_date_inclusive_range [attention; undated; survey]
              (Some (Datetime.ymd 2023 1 5)) None) as [-> H].
  split; [vm_compute; reflexivity|]. apply H. reflexivity.
Defined.

(** ** The keyword filter *)

Section KeywordFilter.
Context {D : Type}.
Implicit Types (papers : list (Paper_ D)).

Lemma keyword_step_match (keywords : list string) (match_type : string)
    (filtered : list (Paper_ D)) (paper : Paper_ D) :
  keyword_step keywords match_type filtered paper
  = if keyword_match keywords match_type paper
    then filtered ++ [paper] else filtered.
Proof.
  unfold keyword_step, keyword_match.
  destruct (String.eqb match_type "any"); [done|].
  by destruct (String.eqb match_type "all").
Qed.

Lemma filter_by_keywords_filter papers (keywords : list string)
    (match_type : string) :
  filter_by_keywords papers keywords match_type
  = match keywords with
    | [] => papers
    | _ :: _ =>
        List.filter (keyword_match (prepare_keywords keywords) match_type)
          papers
    end.
Proof.
  destruct keywords as [|kw kws]; [done|].
  unfold filter_by_keywords.
  erewrite foldl_ext_step by apply keyword_step_match.
  by rewrite foldl_collect.
Qed.

Lemma filter_nothing {A : Type} (l : list A) :
  List.filter (λ _, false) l = [].
Proof. by induction l. Qed.
End KeywordFilter.

(** C6 (as amended).  With an empty keyword list [filter_by_keywords]
    returns its input.  Otherwise each keyword is trimmed and lower-cased
    and the keywords that are blank after trimming are discarded; the
    result is the subsequence of the papers whose cleaned text contains at
    least one of these keywords for "any", every one of them for "all". *)
Theorem filter_by_keywords_prepared {D : Type} (papers : list (Paper_ D))
    (keywords : list string) :
  (∀ match_type, filter_by_keywords papers [] match_type = papers)
  ∧ (keywords ≠ [] →
     filter_by_keywords papers keywords "any"
     = List.filter
         (λ paper, existsb (λ kw, PyStr.contains kw (text_clean paper))
                     (prepare_keywords keywords)) papers
     ∧ filter_by_keywords papers keywords "all"
       = List.filter
           (λ paper, forallb (λ kw, PyStr.contains kw (text_clean paper))
                       (prepare_keywords keywords)) papers).
Proof.
  split; [done|]. intros Hne.
  rewrite !filter_by_keywords_filter.
  destruct keywords as [|kw kws]; done.
Qed.

Lemma filter_by_keywords_prepared_witness :
  filter_by_keywords [attention; survey] ["Transformer"; " "] "any"
  = [attention]
  ∧ filter_by_keywords [attention; survey] ["PAPER "; "ml"] "all"
    = [survey].
Proof.
  destruct (filter_by_keywords_prepared [attention; survey]
              ["Transformer"; " "]) as (_ & H1).
  destruct (filter_by_keywords_prepared [attention; survey]
              ["PAPER "; "ml"]) as (_ & H2).
  destruct (H1 ltac:(discriminate)) as [-> _].
  destruct (H2 ltac:(discriminate)) as [_ ->].
  split; vm_compute; reflexivity.
Defined.

(** C6 (the claim as stated fails).  The keyword [" "] occurs in the text
    of every paper, which always holds the blank between title and
    abstract, so the literal reading keeps the paper; the code discards
    the blank keyword and then no keyword is left to match. *)
Lemma blank_keyword_matches_nothing :
  filter_by_keywords_as_given [attention] [" "] "any" = [attention]
  ∧ filter_by_keywords [attention] [" "] "any" = []
  ∧ filter_by_keywords [attention] [" "] "any"
    ≠ filter_by_keywords_as_given [attention] [" "] "any".
Proof. split; [|split]; by vm_compute. Qed.

(** C10.  With a non-empty keyword list and a match type other than "any"
    and "all", [filter_by_keywords] returns the empty list. *)
Theorem filter_by_keywords_unknown_match_type {D : Type}
    (papers : list (Paper_ D)) (keywords : list string) (match_type : string) :
  keywords ≠ [] → match_type ≠ "any" → match_type ≠ "all" →
  filter_by_keywords papers keywords match_type = [].
Proof.
  intros Hne Hany Hall. rewrite filter_by_keywords_filter.
  destruct keywords as [|kw kws]; [done|].
  unfold keyword_match.
  apply String.eqb_neq in Hany as ->. apply String.eqb_neq in Hall as ->.
  apply filter_nothing.
Qed.

Lemma filter_by_keywords_unknown_match_type_witness :
  filter_by_keywords [attention; survey] ["attention"] "ANY" = [].
Proof.
  apply (filter_by_keywords_unknown_match_type [attention; survey]
           ["attention"] "ANY"); discriminate.
Defined.

(** ** Deduplication *)

Section Dedup.
Context {D : Type}.
Implicit Types (p q : Paper_ D) (papers before : list (Paper_ D)).

Lemma elem_of_keys_snoc before p (k : string) :
  k ∈ (dedup_key <$> (before ++ [p]))
  ↔ k ∈ (dedup_key <$> before) ∨ k = dedup_key p.
Proof.
  rewrite fmap_app, elem_of_app; simpl. by rewrite list_elem_of_singleton.
Qed.

(** The loop computes the first occurrences: [seen] holds the truthy keys
    of the papers already passed. *)
Lemma dedup_fold papers : ∀ (seen : gset string) acc before,
  (∀ k, k ∈ seen
        ↔ PyStr.truthy k = true ∧ k ∈ (dedup_key <$> before)) →
  (foldl dedup_step (seen, acc) papers).2
  = acc ++ first_by_key before papers.
Proof.
  induction papers as [|p r IH]; intros seen acc before Hseen; simpl.
  - by rewrite app_nil_r.
  - destruct (PyStr.truthy (dedup_key p)) eqn:Ht; simpl.
    + rewrite (bool_decide_ext (dedup_key p ∈ seen)
                 (dedup_key p ∈ (dedup_key <$> before)))
        by (rewrite Hseen; tauto).
      destruct (bool_decide (dedup_key p ∈ (dedup_key <$> before))) eqn:Hb;
        simpl.
      * apply bool_decide_eq_true in Hb.
        apply IH. intros k. rewrite elem_of_keys_snoc, Hseen.
        split; [tauto|]. intros [Hk [?| ->]]; tauto.
      * rewrite (IH ({[dedup_key p]} ∪ seen) (acc ++ [p]) (before ++ [p])).
        { by rewrite <- app_assoc. }
        intros k.
        rewrite elem_of_union, elem_of_singleton, elem_of_keys_snoc, Hseen.
        split; [intros [->|?]; tauto | tauto].
    + apply IH. intros k. rewrite elem_of_keys_snoc, Hseen.
      split; [tauto|]. intros [Hk [?| ->]]; [tauto|congruence].
Qed.

Lemma deduplicate_papers_first papers :
  deduplicate_papers papers = first_by_key [] papers.
Proof.
  unfold deduplicate_papers. rewrite (dedup_fold papers ∅ [] []); [done|].
  intros k. simpl. rewrite elem_of_nil, elem_of_empty. tauto.
Qed.

(** What [first_by_key] keeps has truthy keys, new with respect to
    [before] and pairwise distinct. *)
Lemma first_by_key_keys papers : ∀ before,
  (∀ p, p ∈ first_by_key before papers →
        p ∈ papers ∧ PyStr.truthy (dedup_key p) = true
        ∧ dedup_key p ∉ (dedup_key <$> before))
  ∧ NoDup (dedup_key <$> first_by_key before papers).
Proof.
  induction papers as [|p r IH]; intros before; simpl.
  - split; [intros p; by rewrite elem_of_nil | constructor].
  - destruct (IH (before ++ [p])) as [Hin Hnd].
    assert (∀ q, q ∈ first_by_key (before ++ [p]) r →
              q ∈ p :: r ∧ PyStr.truthy (dedup_key q) = true
              ∧ (dedup_key q ∉ (dedup_key <$> before))
              ∧ dedup_key q ≠ dedup_key p) as Hin'.
    { intros q Hq. destruct (Hin q Hq) as (? & ? & Hk).
      rewrite elem_of_keys_snoc in Hk. rewrite elem_of_cons. tauto. }
    destruct (PyStr.truthy (dedup_key p)) eqn:Ht; simpl;
      [destruct (bool_decide (dedup_key p ∈ (dedup_key <$> before))) eqn:Hb;
       simpl|];
      try (split; [intros q Hq; destruct (Hin' q Hq); tauto | done]).
    apply bool_decide_eq_false in Hb. split.
    + intros q [->|Hq]%elem_of_cons.
      * rewrite elem_of_cons. tauto.
      * destruct (Hin' q Hq). tauto.
    + apply NoDup_cons. split; [|done].
      intros (q & Hk & Hq)%list_elem_of_fmap.
      destruct (Hin' q Hq) as (_ & _ & _ & Hne). by apply Hne.
Qed.

(** A list of papers with truthy, new and distinct keys is kept whole. *)
Lemma first_by_key_fixed papers : ∀ before,
  (∀ p, p ∈ papers → PyStr.truthy (dedup_key p) = true
                     ∧ dedup_key p ∉ (dedup_key <$> before)) →
  NoDup (dedup_key <$> papers) →
  first_by_key before papers = papers.
Proof.
  induction papers as [|p r IH]; intros before Hin Hnd; simpl; [done|].
  simpl in Hnd. apply NoDup_cons in Hnd as [Hp Hnd].
  destruct (Hin p ltac:(rewrite elem_of_cons; auto)) as [-> Hnew].
  rewrite bool_decide_eq_false_2 by done. simpl. f_equal.
  apply IH; [|done]. intros q Hq.
  destruct (Hin q ltac:(rewrite elem_of_cons; auto)) as [? ?].
  split; [done|].
  rewrite elem_of_keys_snoc.
  intros [?|Heq]; [done|]. apply Hp. rewrite <- Heq.
  by apply list_elem_of_fmap_2.
Qed.

Lemma first_by_key_length papers : ∀ before,
  (length (first_by_key before papers) ≤ length papers)%nat.
Proof.
  induction papers as [|p r IH]; intros before; simpl; [done|].
  specialize (IH (before ++ [p])).
  destruct (_ && _); simpl; lia.
Qed.

Lemma first_by_key_sublist papers : ∀ before,
  first_by_key before papers `sublist_of` papers.
Proof.
  induction papers as [|p r IH]; intros before; simpl; [constructor|].
  destruct (_ && _); [apply sublist_skip | apply sublist_cons]; apply IH.
Qed.

Lemma dedup_key_id p :
  truthy_opt (paper_id p) = true →
  Some (dedup_key p) = paper_id p ∧ PyStr.truthy (dedup_key p) = true.
Proof.
  unfold dedup_key. intros Ht. rewrite Ht.
  destruct (paper_id p) as [i|]; [done|discriminate].
Qed.
End Dedup.

(** C7.  [deduplicate_papers] is idempotent and never lengthens the list. *)
Theorem deduplicate_papers_idempotent {D : Type} (xs : list (Paper_ D)) :
  deduplicate_papers (deduplicate_papers xs) = deduplicate_papers xs
  ∧ (length (deduplicate_papers xs) ≤ length xs)%nat.
Proof.
  split.
  - rewrite (deduplicate_papers_first (deduplicate_papers xs)).
    rewrite (deduplicate_papers_first xs).
    destruct (first_by_key_keys xs []) as [Hin Hnd].
    apply first_by_key_fixed; [|done].
    intros p Hp. destruct (Hin p Hp) as (_ & ? & ?). done.
  - rewrite deduplicate_papers_first. apply first_by_key_length.
Qed.

(** C2 (as amended).  [deduplicate_papers] is one order-preserving pass
    that keeps exactly the first paper of each non-empty identity key (the
    [id] if truthy, otherwise the lower-cased trimmed title): two papers
    with different truthy ids are both kept whatever their titles, of two
    papers with the same truthy id only the first is kept whatever their
    titles, and a paper whose key is empty (no truthy id and a title that
    is empty once trimmed) is never kept. *)
Theorem deduplicate_papers_first_by_key {D : Type} (papers : list (Paper_ D)) :
  deduplicate_papers papers = first_by_key [] papers
  ∧ deduplicate_papers papers `sublist_of` papers
  ∧ (∀ p q : Paper_ D,
       truthy_opt (paper_id p) = true → truthy_opt (paper_id q) = true →
            paper_id p ≠ paper_id q → deduplicate_papers [p; q] = [p; q])
  ∧ (∀ p q : Paper_ D,
       truthy_opt (paper_id p) = true → paper_id q = paper_id p →
            deduplicate_papers [p; q] = [p])
  ∧ (∀ p, dedup_key p = "" → p ∉ deduplicate_papers papers).
Proof.
  split; [apply deduplicate_papers_first|]. split; [|split; [|split]].
  - rewrite deduplicate_papers_first. apply first_by_key_sublist.
  - intros p q Hp Hq Hne. rewrite deduplicate_papers_first; simpl.
    destruct (dedup_key_id p Hp) as [Hkp ->].
    destruct (dedup_key_id q Hq) as [Hkq ->]. simpl.
    rewrite bool_decide_eq_false_2; [done|].
    rewrite list_elem_of_singleton. intros Heq. apply Hne. congruence.
  - intros p q Hp Heq. rewrite deduplicate_papers_first; simpl.
    assert (truthy_opt (paper_id q) = true) as Hq by by rewrite Heq.
    destruct (dedup_key_id p Hp) as [Hkp ->].
    destruct (dedup_key_id q Hq) as [Hkq ->]. simpl.
    rewrite bool_decide_eq_true_2; [done|].
    rewrite list_elem_of_singleton. congruence.
  - intros p Hk Hp. rewrite deduplicate_papers_first in Hp.
    destruct (first_by_key_keys papers []) as [Hin _].
    destruct (Hin p Hp) as (_ & Ht & _). by rewrite Hk in Ht.
Qed.

Lemma deduplicate_papers_first_by_key_witness :
  deduplicate_papers [attention; survey; untitled; attention]
  = [attention; survey]
  ∧ deduplicate_papers
      [attention; arxiv_paper "2301.009" (paper_title attention) "" None]
    = [attention; arxiv_paper "2301.009" (paper_title attention) "" None]
  ∧ deduplicate_papers
      [attention; arxiv_paper "2301.001" "Another Title" "" None]
    = [attention]
  ∧ untitled ∉ deduplicate_papers [attention; survey; untitled; attention].
Proof.
  destruct (deduplicate_papers_first_by_key
              [attention; survey; untitled; attention])
    as (-> & _ & HA & HB & HC).
  split; [vm_compute; reflexivity|]. split; [|split].
  - apply HA; [reflexivity|reflexivity|discriminate].
  - apply HB; reflexivity.
  - rewrite <- (deduplicate_papers_first
                  [attention; survey; untitled; attention]).
    apply HC. vm_compute. reflexivity.
Defined.

(** C2 (the claim as stated fails).  A paper with neither a truthy [id] nor
    a non-empty title has the empty key, and no such paper is retained,
    not even the first one. *)
Lemma untitled_paper_not_retained :
  paper_id untitled = None ∧ paper_title untitled = ""
  ∧ dedup_key untitled = ""
  ∧ deduplicate_papers [untitled; untitled] = []
  ∧ ¬ ∃ q, q ∈ deduplicate_papers [untitled; untitled]
           ∧ dedup_key q = "".
Proof.
  repeat split; try (vm_compute; reflexivity).
  assert (deduplicate_papers [untitled; untitled] = []) as ->
    by (vm_compute; reflexivity).
  intros (q & Hq & _). by apply elem_of_nil in Hq.
Qed.

(** ** Sorting *)

Section SortedFacts.
Context {A K : Type} (key : A → K) (le : K → K → bool).
Hypothesis le_total : ∀ a b, le a b = false → le b a = true.
Hypothesis le_trans :
  ∀ a b c, le a b = true → le b c = true → le a c = true.

Lemma before_total reverse x y :
  goes_before key le reverse x y = false → stands_before key le reverse y x.
Proof. unfold stands_before, goes_before. destruct reverse; apply le_total. Qed.

Lemma before_trans reverse x y z :
  stands_before key le reverse x y → stands_before key le reverse y z →
  stands_before key le reverse x z.
Proof. unfold stands_before, goes_before. destruct reverse; eauto. Qed.

Lemma insert_sorted_perm reverse x l :
  insert_sorted key le reverse x l ≡ₚ x :: l.
Proof.
  induction l as [|y r IH]; simpl; [done|].
  destruct (goes_before key le reverse x y); [done|].
  rewrite IH. apply Permutation_swap.
Qed.

Lemma sorted_perm reverse l : sorted key le reverse l ≡ₚ l.
Proof.
  induction l as [|x l IH]; simpl; [done|].
  fold (sorted key le reverse l). by rewrite insert_sorted_perm, IH.
Qed.

Lemma insert_sorted_strongly reverse x l :
  StronglySorted (stands_before key le reverse) l →
  StronglySorted (stands_before key le reverse)
    (insert_sorted key le reverse x l).
Proof.
  induction l as [|y r IH]; simpl; intros Hl.
  - repeat constructor.
  - apply StronglySorted_inv in Hl as [Hr Hy].
    destruct (goes_before key le reverse x y) eqn:Hxy.
    + constructor; [by constructor|].
      constructor; [done|].
      eapply Forall_impl; [exact Hy|]. intros z Hz.
      by apply before_trans with y.
    + constructor; [by apply IH|].
      apply Forall_forall. intros z Hz.
      rewrite insert_sorted_perm, elem_of_cons in Hz.
      destruct Hz as [->|Hz]; [by apply before_total|].
      rewrite Forall_forall in Hy. by apply Hy.
Qed.

Lemma sorted_strongly reverse l :
  StronglySorted (stands_before key le reverse) (sorted key le reverse l).
Proof.
  induction l as [|x l IH]; simpl; [constructor|].
  by apply insert_sorted_strongly.
Qed.
End SortedFacts.

Lemma StronglySorted_lookup {A : Type} (R : A → A → Prop) (l : list A) :
  StronglySorted R l →
  ∀ (i j : nat) (x y : A),
    (i < j)%nat → l !! i = Some x → l !! j = Some y → R x y.
Proof.
  induction 1 as [|a l Hl IH Ha]; intros i j x y Hij Hx Hy.
  - by rewrite lookup_nil in Hx.
  - destruct j as [|j]; [lia|]. simpl in Hy.
    destruct i as [|i]; simpl in Hx.
    + injection Hx as <-. rewrite Forall_forall in Ha. apply Ha.
      apply list_elem_of_lookup. eauto.
    + apply (IH i j); [lia|done|done].
Qed.

(** C3 (as amended).  [sort_papers] with [sort_by="date"] and
    [reverse=True] returns the papers newest-first by the key
    "[published_date], or 1970-01-01 00:00:00 when it is missing": a paper
    without a date stands after every paper dated later than that instant
    and before every paper dated earlier. *)
Theorem sort_papers_date_newest_first (papers : list Paper) :
  let out := sort_papers papers "date" true in
  out ≡ₚ papers
  ∧ (∀ (i j : nat) (p q : Paper),
       (i < j)%nat → out !! i = Some p → out !! j = Some q →
       Datetime.leb (date_key q) (date_key p) = true)
  ∧ (∀ (i j : nat) (p q : Paper) (d : datetime),
       out !! i = Some p → out !! j = Some q →
       published_date p = None → published_date q = Some d →
       (Datetime.ltb Datetime.epoch d = true → (j < i)%nat)
       ∧ (Datetime.ltb d Datetime.epoch = true → (i < j)%nat)).
Proof.
  intros out.
  assert (∀ (i j : nat) (p q : Paper),
            (i < j)%nat → out !! i = Some p → out !! j = Some q →
            Datetime.leb (date_key q) (date_key p) = true) as Hdesc.
  { intros i j p q Hij Hp Hq.
    pose proof (sorted_strongly date_key Datetime.leb
                  DatetimeFacts.leb_total DatetimeFacts.leb_trans true papers)
      as Hs.
    apply (StronglySorted_lookup _ _ Hs i j p q Hij Hp Hq). }
  split; [apply sorted_perm|]. split; [exact Hdesc|].
  intros i j p q d Hp Hq Hnone Hsome.
  assert (date_key p = Datetime.epoch) as Hkp
    by (unfold date_key; by rewrite Hnone).
  assert (date_key q = d) as Hkq by (unfold date_key; by rewrite Hsome).
  assert (i ≠ j) as Hne.
  { intros ->. rewrite Hp in Hq. injection Hq as ->. congruence. }
  split; intros Hlt; rewrite DatetimeFacts.ltb_negb_leb in Hlt;
    apply negb_true_iff in Hlt.
  - destruct (decide (j < i)%nat) as [|Hge]; [done|].
    assert (i < j)%nat as Hij by lia.
    specialize (Hdesc i j p q Hij Hp Hq). congruence.
  - destruct (decide (i < j)%nat) as [|Hge]; [done|].
    assert (j < i)%nat as Hji by lia.
    specialize (Hdesc j i q p Hji Hq Hp). congruence.
Qed.

Lemma sort_papers_date_newest_first_witness :
  sort_papers [early_paper; undated; attention] "date" true
  = [attention; undated; early_paper]
  ∧ (1 < 2)%nat ∧ (0 < 1)%nat.
Proof.
  destruct (sort_papers_date_newest_first [early_paper; undated; attention])
    as (_ & _ & H).
  split; [vm_compute; reflexivity|].
  destruct (H 1%nat 2%nat undated early_paper (Datetime.ymd 1969 12 31)
              eq_refl eq_refl eq_refl eq_refl) as [_ H1].
  destruct (H 1%nat 0%nat undated attention (Datetime.ymd 2023 1 5)
              eq_refl eq_refl eq_refl eq_refl) as [H2 _].
  split; [apply H1 | apply H2]; reflexivity.
Defined.

(** C3 (the claim as stated fails).  A paper dated 1969-12-31 is older than
    the default 1970-01-01 given to a paper without a date, so newest-first
    the undated paper stands before it, not after. *)
Lemma undated_sorts_before_older_date :
  sort_papers [early_paper; undated] "date" true = [undated; early_paper]
  ∧ published_date undated = None
  ∧ published_date early_paper = Some (Datetime.ymd 1969 12 31)
  ∧ ¬ undated_after_dated (sort_papers [early_paper; undated] "date" true).
Proof.
  split; [vm_compute; reflexivity|]. split; [reflexivity|].
  split; [reflexivity|].
  intros H.
  specialize (H 0%nat 1%nat undated early_paper eq_refl eq_refl eq_refl
                ltac:(eexists; reflexivity)).
  lia.
Qed.

(** ** The weekly accumulator *)

Lemma to_json_of_json (j : JsonPaper) : to_json (of_json j) = j.
Proof. destruct j as [? ? ? ? ? ? [d|] ? ? ? ? ?]; reflexivity. Qed.

Lemma to_json_of_json_list (l : list JsonPaper) :
  to_json <$> (of_json <$> l) = l.
Proof.
  induction l as [|j l IH]; [done|].
  rewrite !fmap_cons. by rewrite to_json_of_json, IH.
Qed.

Lemma load_papers_stored (filepath : string) (fs : filesystem) :
  load_papers filepath fs = of_json <$> stored_papers filepath fs.
Proof.
  unfold load_papers, stored_papers.
  by destruct (files fs !! filepath) as [[| |ps]|].
Qed.

Lemma same_id_spec (q p : PyPaper) :
  same_id q p = true ↔ ∃ k, truthy_id p = Some k ∧ truthy_id q = Some k.
Proof.
  unfold same_id, truthy_id.
  destruct (truthy_opt (paper_id p)) eqn:Hp; simpl.
  - rewrite bool_decide_eq_true. split.
    + intros Heq. destruct (paper_id p) as [k|] eqn:E; [|done].
      exists k. split; [done|]. rewrite Heq. by rewrite Hp.
    + intros (k & Hk & Hq). destruct (truthy_opt (paper_id q)); congruence.
  - split; [done|]. by intros (k & Hk & _).
Qed.

Lemma same_title_spec (q p : PyPaper) :
  same_title q p = true
  ↔ ∃ k, truthy_title p = Some k ∧ truthy_title q = Some k.
Proof.
  unfold same_title, truthy_title.
  destruct (PyStr.truthy (paper_title p)) eqn:Hp; simpl.
  - rewrite bool_decide_eq_true. split.
    + intros Heq. exists (paper_title p). split; [done|].
      rewrite Heq. by rewrite Hp.
    + intros (k & Hk & Hq).
      destruct (PyStr.truthy (paper_title q)); congruence.
  - split; [done|]. by intros (k & Hk & _).
Qed.

Lemma rejected_by_spec (stored : list PyPaper) (p : PyPaper) :
  rejected_by stored p = true
  ↔ (∃ k, truthy_id p = Some k ∧ k ∈ omap truthy_id stored)
    ∨ (∃ k, truthy_title p = Some k ∧ k ∈ omap truthy_title stored).
Proof.
  unfold rejected_by. rewrite existsb_exists. split.
  - intros (q & Hq%list_elem_of_In & [H|H]%orb_true_iff).
    + apply same_id_spec in H as (k & ? & ?). left. exists k.
      split; [done|]. apply list_elem_of_omap. eauto.
    + apply same_title_spec in H as (k & ? & ?). right. exists k.
      split; [done|]. apply list_elem_of_omap. eauto.
  - intros [(k & Hk & (q & Hq & Hqk)%list_elem_of_omap)
           |(k & Hk & (q & Hq & Hqk)%list_elem_of_omap)];
      exists q; (split; [by apply list_elem_of_In|]); apply orb_true_iff.
    + left. apply same_id_spec. eauto.
    + right. apply same_title_spec. eauto.
Qed.

Lemma id_seen_spec (st : append_state) (p : PyPaper) :
  id_seen st p = true ↔ ∃ k, truthy_id p = Some k ∧ k ∈ seen_ids st.
Proof.
  unfold id_seen, truthy_id, truthy_opt.
  destruct (paper_id p) as [i|]; [|split; [done|by intros (k & ? & _)]].
  rewrite andb_true_iff, bool_decide_eq_true.
  destruct (PyStr.truthy i); split.
  - intros [_ Hi]. by exists i.
  - intros (k & [= <-] & Hk). done.
  - by intros [? _].
  - by intros (k & ? & _).
Qed.

Lemma title_seen_spec (st : append_state) (p : PyPaper) :
  title_seen st p = true
  ↔ ∃ k, truthy_title p = Some k ∧ k ∈ seen_titles st.
Proof.
  unfold title_seen, truthy_title.
  rewrite andb_true_iff, bool_decide_eq_true.
  destruct (PyStr.truthy (paper_title p)); split.
  - intros [_ Hi]. by exists (paper_title p).
  - intros (k & [= <-] & Hk). done.
  - by intros [? _].
  - by intros (k & ? & _).
Qed.

(** Under the invariant the test of the loop is the rejection test. *)
Lemma append_test_rejected (st : append_state) (p : PyPaper) :
  append_inv st →
  id_seen st p || title_seen st p = rejected_by (existing st) p.
Proof.
  intros [Hids Htitles]. apply Bool.eq_iff_eq_true.
  rewrite orb_true_iff, id_seen_spec, title_seen_spec, rejected_by_spec.
  rewrite Hids, Htitles. unfold seen_ids_of, seen_titles_of.
  by setoid_rewrite elem_of_list_to_set.
Qed.

Lemma append_step_inv (st : append_state) (p : PyPaper) :
  append_inv st → append_inv (append_step st p).
Proof.
  intros Hinv. unfold append_step.
  destruct (id_seen st p || title_seen st p); [done|].
  destruct Hinv as [Hids Htitles]. split; simpl.
  - unfold seen_ids_of in *. rewrite omap_app, list_to_set_app_L, <- Hids.
    simpl. unfold truthy_id, truthy_opt.
    destruct (paper_id p) as [i|]; [destruct (PyStr.truthy i)|]; simpl;
      rewrite (right_id_L ∅ (∪)); [apply (comm_L (∪))|done|done].
  - unfold seen_titles_of in *.
    rewrite omap_app, list_to_set_app_L, <- Htitles.
    simpl. unfold truthy_title.
    destruct (PyStr.truthy (paper_title p)); simpl;
      rewrite (right_id_L ∅ (∪)); [apply (comm_L (∪))|done].
Qed.

(** The loop appends the accepted papers. *)
Lemma append_fold (papers : list PyPaper) : ∀ st : append_state,
  append_inv st →
  existing (foldl append_step st papers)
  = existing st ++ accepted (existing st) papers.
Proof.
  induction papers as [|p r IH]; intros st Hinv; simpl.
  - by rewrite app_nil_r.
  - rewrite IH by by apply append_step_inv.
    unfold append_step. rewrite (append_test_rejected st p Hinv).
    destruct (rejected_by (existing st) p); [done|]. simpl.
    by rewrite <- app_assoc.
Qed.

Lemma append_loop_accepted (stored papers : list PyPaper) :
  existing (append_loop stored papers) = stored ++ accepted stored papers.
Proof. unfold append_loop. by rewrite append_fold. Qed.

Lemma accepted_sublist (papers : list PyPaper) : ∀ stored,
  accepted stored papers `sublist_of` papers.
Proof.
  induction papers as [|p r IH]; intros stored; simpl; [constructor|].
  destruct (rejected_by stored p); [apply sublist_cons | apply sublist_skip];
    apply IH.
Qed.

(** The accepted papers carry distinct keys, new to the bucket, for every
    key the rejection test looks at. *)
Section AcceptedDistinct.
Variable f : PyPaper → option string.
Hypothesis rejected_f : ∀ (stored : list PyPaper) (p : PyPaper) (k : string),
  rejected_by stored p = false → f p = Some k → k ∉ omap f stored.

Lemma accepted_distinct (papers : list PyPaper) : ∀ stored,
  NoDup (omap f (accepted stored papers))
  ∧ ∀ k, k ∈ omap f (accepted stored papers) → k ∉ omap f stored.
Proof.
  induction papers as [|p r IH]; intros stored; simpl.
  - split; [constructor|]. intros k. by rewrite elem_of_nil.
  - destruct (rejected_by stored p) eqn:Hrej; [apply IH|].
    destruct (IH (stored ++ [p])) as [Hnd Hnew]. simpl.
    assert (∀ k, k ∈ omap f (accepted (stored ++ [p]) r) →
              (k ∉ omap f stored) ∧ f p ≠ Some k) as Hnew'.
    { intros k Hk. specialize (Hnew k Hk).
      rewrite omap_app, elem_of_app in Hnew. simpl in Hnew.
      split; [tauto|]. intros Hp. apply Hnew. right.
      rewrite Hp. apply list_elem_of_singleton. done. }
    destruct (f p) as [k0|] eqn:Hfp.
    + split.
      * apply NoDup_cons. split; [|done].
        intros Hk0. by destruct (Hnew' k0 Hk0).
      * intros k [->|Hk]%elem_of_cons; [by eapply rejected_f|].
        by destruct (Hnew' k Hk).
    + split; [done|]. intros k Hk. by destruct (Hnew' k Hk).
Qed.
End AcceptedDistinct.

Lemma rejected_by_id (stored : list PyPaper) (p : PyPaper) (k : string) :
  rejected_by stored p = false → truthy_id p = Some k →
  k ∉ omap truthy_id stored.
Proof.
  intros Hrej Hk Hin. apply not_true_iff_false in Hrej. apply Hrej.
  apply rejected_by_spec. left. eauto.
Qed.

Lemma rejected_by_title (stored : list PyPaper) (p : PyPaper) (k : string) :
  rejected_by stored p = false → truthy_title p = Some k →
  k ∉ omap truthy_title stored.
Proof.
  intros Hrej Hk Hin. apply not_true_iff_false in Hrej. apply Hrej.
  apply rejected_by_spec. right. eauto.
Qed.

(** C5 (as amended).  When the bucket file can be written,
    [append_papers] keeps the stored papers in their order and appends, in
    input order, exactly the new papers not rejected when their turn
    comes: a paper is rejected when its truthy [id] or its truthy [title]
    is that of a paper already in the bucket or appended before it in the
    same call.  The next read returns this list, each new paper in its
    JSON form.  Among the appended papers every truthy id and every truthy
    title occurs once and is new to the bucket; a paper with neither is
    always appended. *)
Theorem append_papers_union (papers : list PyPaper) (filepath : string)
    (fs : filesystem) :
  writable fs filepath = true →
  let old := load_papers filepath fs in
  let new := accepted old papers in
  let fs' := (append_papers papers filepath fs).1 in
  (append_papers papers filepath fs).2 = true
  ∧ stored_papers filepath fs'
    = stored_papers filepath fs ++ (to_json <$> new)
  ∧ load_papers filepath fs' = old ++ (of_json <$> (to_json <$> new))
  ∧ new `sublist_of` papers
  ∧ (NoDup (omap truthy_id new)
     ∧ ∀ k, k ∈ omap truthy_id new → k ∉ omap truthy_id old)
  ∧ (NoDup (omap truthy_title new)
     ∧ ∀ k, k ∈ omap truthy_title new → k ∉ omap truthy_title old)
  ∧ (∀ p stored,
       rejected_by stored p = true
       ↔ (∃ k, truthy_id p = Some k ∧ k ∈ omap truthy_id stored)
         ∨ (∃ k, truthy_title p = Some k ∧ k ∈ omap truthy_title stored))
  ∧ (∀ p stored, truthy_id p = None → truthy_title p = None →
                 rejected_by stored p = false).
Proof.
  intros Hw old new fs'.
  assert (stored_papers filepath fs'
          = stored_papers filepath fs ++ (to_json <$> new)) as Hstored.
  { unfold fs', append_papers, save_papers. rewrite Hw. simpl.
    unfold stored_papers at 1, write_file; simpl.
    rewrite lookup_insert_eq, append_loop_accepted, fmap_app.
    f_equal. unfold old.
    by rewrite load_papers_stored, to_json_of_json_list. }
  split; [|split; [exact Hstored|split; [|split; [|split; [|split;
    [|split; [intros p stored; apply rejected_by_spec|]]]]]]].
  - unfold append_papers, save_papers. by rewrite Hw.
  - rewrite (load_papers_stored filepath fs'), Hstored, fmap_app.
    by rewrite <- load_papers_stored.
  - apply accepted_sublist.
  - apply (accepted_distinct truthy_id rejected_by_id).
  - apply (accepted_distinct truthy_title rejected_by_title).
  - intros p stored Hid Htitle. apply not_true_iff_false.
    rewrite rejected_by_spec. intros [(k & ? & _)|(k & ? & _)]; congruence.
Qed.

Lemma append_papers_union_witness :
  writable bucket_fs week_01 = true
  ∧ load_papers week_01
      (append_papers
         [of_adapter attention; of_adapter survey; deep_learning;
          deep_learning; of_adapter untitled; of_adapter untitled]
         week_01 bucket_fs).1
    = of_json <$> (to_json <$>
        [of_adapter attention; of_adapter survey; deep_learning;
         of_adapter untitled; of_adapter untitled]).
Proof.
  split; [reflexivity|].
  destruct (append_papers_union
              [of_adapter attention; of_adapter survey; deep_learning;
               deep_learning; of_adapter untitled; of_adapter untitled]
              week_01 bucket_fs eq_refl) as (_ & _ & -> & _).
  vm_compute. reflexivity.
Defined.

(** C5 (the claim as stated fails).  A paper with no [id] and an empty
    title is appended although its title is the title of a paper already
    in the bucket, so the bucket read back holds the same paper twice. *)
Lemma untitled_papers_accumulate_twice :
  let p := of_adapter untitled in
  let bucket := load_papers week_01 (append_papers [p; p] week_01 empty_fs).1 in
  bucket = [p; p]
  ∧ paper_title p ∈ (paper_title <$> [p])
  ∧ ¬ NoDup bucket.
Proof.
  intros p bucket.
  assert (bucket = [p; p]) as -> by (vm_compute; reflexivity).
  split; [done|]. split; [apply list_elem_of_singleton; reflexivity|].
  intros [Hp _]%NoDup_cons. apply Hp, list_elem_of_singleton. done.
Qed.

(** C4 (as amended).  The two duplicate decisions use different
    identities.  [deduplicate_papers] takes a paper for a duplicate of an
    earlier one when their identity keys agree (the [id] if truthy,
    otherwise the lower-cased trimmed title).  The accumulator rejects a
    new paper when its truthy [id] is the [id], or its truthy [title] is
    character for character the [title], of a paper in the bucket; a new
    paper without a truthy [id] whose title differs from every stored
    title, be it only in letter case or surrounding white space, is
    appended. *)
Theorem dedup_and_accumulator_identities (stored : list PyPaper)
    (p q : PyPaper) :
  (PyStr.truthy (dedup_key p) = true → PyStr.truthy (dedup_key q) = true →
   (deduplicate_papers [p; q] = [p] ↔ dedup_key q = dedup_key p))
  ∧ existing (append_loop stored [q])
    = (if rejected_by stored q then stored else stored ++ [q])
  ∧ (rejected_by stored q = true
     ↔ ∃ s, s ∈ stored
            ∧ (truthy_opt (paper_id q) = true ∧ paper_id s = paper_id q
               ∨ PyStr.truthy (paper_title q) = true
                 ∧ paper_title s = paper_title q))
  ∧ (truthy_opt (paper_id q) = false →
     (∀ s, s ∈ stored → paper_title s ≠ paper_title q) →
     existing (append_loop stored [q]) = stored ++ [q]).
Proof.
  assert (rejected_by stored q = true
          ↔ ∃ s, s ∈ stored
                 ∧ (truthy_opt (paper_id q) = true ∧ paper_id s = paper_id q
                    ∨ PyStr.truthy (paper_title q) = true
                      ∧ paper_title s = paper_title q)) as Hrej.
  { unfold rejected_by. rewrite existsb_exists. split.
    - intros (s & Hs%list_elem_of_In & H). exists s. split; [done|].
      apply orb_true_iff in H as [H|H]; apply andb_true_iff in H as [? H];
        apply bool_decide_eq_true in H; tauto.
    - intros (s & Hs%list_elem_of_In & H). exists s. split; [done|].
      apply orb_true_iff. unfold same_id, same_title.
      destruct H as [[-> H]|[-> H]]; [left|right];
        by apply bool_decide_eq_true. }
  assert (existing (append_loop stored [q])
          = (if rejected_by stored q then stored else stored ++ [q])) as Happ.
  { rewrite append_loop_accepted. simpl.
    destruct (rejected_by stored q); [by rewrite app_nil_r|done]. }
  split; [|split; [exact Happ|split; [exact Hrej|]]].
  - intros Hp Hq. rewrite deduplicate_papers_first. simpl.
    rewrite Hp, Hq. simpl.
    destruct (bool_decide (dedup_key q ∈ [dedup_key p])) eqn:Hb; simpl.
    + apply bool_decide_eq_true, list_elem_of_singleton in Hb. done.
    + apply bool_decide_eq_false in Hb.
      rewrite list_elem_of_singleton in Hb. split; [discriminate|done].
  - intros Hid Htitle. rewrite Happ.
    destruct (rejected_by stored q) eqn:Hr; [|done].
    destruct Hrej as [Hrej _].
    destruct (Hrej eq_refl) as (s & Hs & [[? _]|[_ ?]]); [congruence|].
    by destruct (Htitle s Hs).
Qed.

Lemma dedup_and_accumulator_identities_witness :
  (deduplicate_papers [deep_learning; deep_learning_lower] = [deep_learning]
   ↔ dedup_key deep_learning_lower = dedup_key deep_learning)
  ∧ existing (append_loop [deep_learning] [deep_learning_lower])
    = [deep_learning; deep_learning_lower].
Proof.
  destruct (dedup_and_accumulator_identities [deep_learning]
              deep_learning deep_learning_lower) as (H1 & _ & _ & H4).
  split; [apply H1; reflexivity|].
  apply H4; [reflexivity|].
  intros s ->%list_elem_of_singleton. discriminate.
Defined.

(** C4 (the claim as stated fails).  The titles ["Deep Learning"] and
    ["  deep learning "] have the same normalized form, and
    [deduplicate_papers] takes the second paper for a duplicate of the
    first; the accumulator, with the first paper in the bucket, appends
    the second. *)
Lemma accumulator_keeps_case_variant :
  paper_id deep_learning = None ∧ paper_id deep_learning_lower = None
  ∧ PyStr.strip (PyStr.lower (paper_title deep_learning_lower))
    = PyStr.strip (PyStr.lower (paper_title deep_learning))
  ∧ deduplicate_papers [deep_learning; deep_learning_lower] = [deep_learning]
  ∧ existing (append_loop [deep_learning] [deep_learning_lower])
    = [deep_learning; deep_learning_lower]
  ∧ existing (append_loop [deep_learning] [deep_learning_lower])
    ≠ [deep_learning].
Proof. repeat split; try (vm_compute; reflexivity). by vm_compute. Qed.

(** ** Strings *)

Module StrFacts.
Import PyStr Occurs.

Lemma app_cons (c : ascii) (s t : string) :
  String c s +:+ t = String c (s +:+ t).
Proof. reflexivity. Qed.

Lemma app_assoc (a b c : string) : (a +:+ b) +:+ c = a +:+ (b +:+ c).
Proof. induction a as [|x a IH]; [done|]. by rewrite !app_cons, IH. Qed.

Lemma app_nil_r (a : string) : a +:+ "" = a.
Proof. induction a as [|x a IH]; [done|]. by rewrite app_cons, IH. Qed.

Lemma startswith_app_l (s sub t : string) :
  startswith s sub = true → startswith (s +:+ t) sub = true.
Proof.
  revert s. induction sub as [|a sub IH]; intros s; [reflexivity|].
  destruct s as [|b s]; [done|].
  rewrite app_cons. simpl. destruct (Ascii.eqb a b); [apply IH|done].
Qed.

Lemma contains_app_l (sub s t : string) :
  contains sub s = true → contains sub (s +:+ t) = true.
Proof.
  induction s as [|c s IH].
  - simpl. rewrite orb_false_r. destruct sub; [|done]. by destruct t.
  - rewrite app_cons. simpl.
    intros [H|H]%orb_true_iff; apply orb_true_iff.
    + left. by apply (startswith_app_l (String c s)).
    + right. by apply IH.
Qed.

Lemma contains_app_r (sub s t : string) :
  contains sub s = true → contains sub (t +:+ s) = true.
Proof.
  intros H. induction t as [|c t IH]; [done|].
  rewrite app_cons. simpl. rewrite IH. apply orb_true_r.
Qed.





Lemma no_char_cons (c b : ascii) (r : string) :
  no_char c (String b r) = negb (Ascii.eqb c b) && no_char c r.
Proof. done. Qed.

Lemma no_char_app (c : ascii) (a b : string) :
  no_char c (a +:+ b) = no_char c a && no_char c b.
Proof.
  induction a as [|x a IH]; [done|].
  rewrite app_cons, !no_char_cons, IH. by rewrite andb_assoc.
Qed.


(** [s and s.strip()] is truthy exactly when [s.strip()] is. *)
Lemma truthy_strip (s : string) :
  truthy s && truthy (strip s) = truthy (strip s).
Proof. by destruct s. Qed.
End StrFacts.

(** ** Decimal numerals in paths and timestamps *)

Module NumeralFacts.
Import PyStr Numeral Occurs.

Lemma digits_only_cons (c : ascii) (r : string) :
  digits_only (String c r)
  = ((48 <=? code c) && (code c <=? 57))%N && digits_only r.
Proof. done. Qed.

Lemma digits_only_app (a b : string) :
  digits_only (a +:+ b) = digits_only a && digits_only b.
Proof.
  induction a as [|c a IH]; [done|].
  rewrite StrFacts.app_cons, !digits_only_cons, IH. by rewrite andb_assoc.
Qed.

Lemma digits_only_zeros (k : nat) : digits_only (zeros k) = true.
Proof. induction k as [|k IH]; [done|]. simpl zeros. by rewrite digits_only_cons, IH. Qed.

Lemma digits_only_uint (d : Decimal.uint) :
  digits_only (NilEmpty.string_of_uint d) = true.
Proof. induction d; simpl NilEmpty.string_of_uint; [done|..];
  by rewrite digits_only_cons, IHd. Qed.

Lemma to_uint_nonnil (n : N) : N.to_uint n ≠ Decimal.Nil.
Proof. destruct n; [done|]. apply DecimalPos.Unsigned.to_uint_nonnil. Qed.

Lemma str_N_uint (n : N) : str_N n = NilEmpty.string_of_uint (N.to_uint n).
Proof.
  unfold str_N. pose proof (to_uint_nonnil n).
  by destruct (N.to_uint n).
Qed.

Lemma digits_only_str_N (n : N) : digits_only (str_N n) = true.
Proof. rewrite str_N_uint. apply digits_only_uint. Qed.

Lemma str_N_nonempty (n : N) : str_N n ≠ "".
Proof.
  rewrite str_N_uint. pose proof (to_uint_nonnil n).
  by destruct (N.to_uint n).
Qed.

(** Leading zeros do not change the number read back. *)
Lemma value_zeros (k : nat) (n : N) : value (zeros k +:+ str_N n) = Some n.
Proof.
  unfold value. induction k as [|k IH].
  - change (zeros 0 +:+ str_N n) with (str_N n).
    rewrite str_N_uint, NilEmpty.usu. simpl.
    by rewrite DecimalN.Unsigned.of_to.
  - simpl zeros. rewrite StrFacts.app_cons.
    simpl NilEmpty.uint_of_string.
    destruct (NilEmpty.uint_of_string (zeros k +:+ str_N n)) as [d|];
      [|done].
    simpl in *. exact IH.
Qed.

(** A character that is no digit is not in a string of digits. *)
Lemma digits_only_no_char (c : ascii) (s : string) :
  ((48 <=? code c) && (code c <=? 57))%N = false →
  digits_only s = true → no_char c s = true.
Proof.
  intros Hc. induction s as [|x s IH]; [done|].
  rewrite digits_only_cons. intros [Hx Hs]%andb_true_iff.
  simpl. rewrite IH by done.
  destruct (Ascii.eqb_spec c x) as [->|]; [congruence|done].
Qed.

Lemma digits_only_not_slash_end (s : string) :
  digits_only s = true → endswith_slash s = false.
Proof.
  induction s as [|x s IH]; [done|].
  rewrite digits_only_cons. intros [Hx Hs]%andb_true_iff.
  destruct s as [|y s]; [|exact (IH Hs)].
  simpl. destruct (Ascii.eqb_spec x "/") as [->|]; [done|done].
Qed.

Lemma endswith_slash_app (a b : string) :
  b ≠ "" → endswith_slash (a +:+ b) = endswith_slash b.
Proof.
  intros Hb. induction a as [|c a IH]; [done|].
  rewrite StrFacts.app_cons.
  destruct (a +:+ b) as [|y r] eqn:E.
  - destruct a; [by destruct b|done].
  - exact IH.
Qed.

Lemma digits_only_not_slash_start (s : string) :
  digits_only s = true → startswith s "/" = false.
Proof.
  destruct s as [|x s]; [done|].
  rewrite digits_only_cons. intros [Hx _]%andb_true_iff.
  change (startswith (String x s) "/") with (if Ascii.eqb "/" x then true else false).
  destruct (Ascii.eqb_spec "/" x) as [<-|]; [by vm_compute in Hx|done].
Qed.


End NumeralFacts.

(** ** The document *)

Module ReadmeFacts.
Import PyStr Readme StrFacts.

Lemma generate_readme_sections
    (latest_papers daily_recommendations : list Paper)
    (weekly_summary : string) (last_updated : option string)
    (now : datetime) :
  generate_readme latest_papers daily_recommendations weekly_summary
    last_updated now
  = header (effective_last_updated last_updated now)
      +:+ generate_latest_news_section latest_papers
      +:+ generate_daily_recommendation_section daily_recommendations
      +:+ (if truthy (strip weekly_summary)
           then generate_weekly_summary_section weekly_summary now else "")
      +:+ footer.
Proof.
  unfold generate_readme. rewrite truthy_strip.
  unfold header, footer, header_parts, footer_parts, concat.
  destruct (truthy (strip weekly_summary)); simpl;
    rewrite ?app_assoc, ?app_nil_r; reflexivity.
Qed.



End ReadmeFacts.





(* ===================================================================== *)
(** * Part III: further properties of the modules                         *)
(* ===================================================================== *)

(** ** Lists kept by a test *)


Lemma filter_elem_of {A : Type} (f : A → bool) (l : list A) (x : A) :
  x ∈ List.filter f l ↔ x ∈ l ∧ f x = true.
Proof. by rewrite !list_elem_of_In, filter_In. Qed.

Lemma filter_comm {A : Type} (f g : A → bool) (l : list A) :
  List.filter f (List.filter g l) = List.filter g (List.filter f l).
Proof.
  induction l as [|x l IH]; simpl; [done|].
  destruct (f x) eqn:Hf, (g x) eqn:Hg; simpl; rewrite ?Hf, ?Hg, IH; done.
Qed.

(** ** The category and conference filters *)

Section MoreFilterFacts.
Context {D : Type}.
Implicit Types (paper : Paper_ D) (papers : list (Paper_ D)).

(** The tests of the two loops. *)
Lemma filter_by_categories_filter papers (categories : list string) :
  filter_by_categories papers categories
  = match categories with
    | [] => papers
    | _ :: _ =>
        List.filter
          (λ paper, existsb
             (λ cat, bool_decide (PyStr.lower cat ∈ lower_set categories))
             (paper_categories paper)) papers
    end.
Proof.
  destruct categories as [|c cs]; [done|].
  unfold filter_by_categories, category_step. by rewrite foldl_collect.
Qed.

Lemma filter_by_conference_filter papers (conferences : list string) :
  filter_by_conference papers conferences
  = match conferences with
    | [] => papers
    | _ :: _ =>
        List.filter
          (λ paper,
             match paper_conference paper with
             | Some conference =>
                 PyStr.truthy conference
                 && bool_decide
                      (PyStr.lower conference ∈ lower_set conferences)
             | None => false
             end) papers
    end.
Proof.
  destruct conferences as [|c cs]; [done|].
  unfold filter_by_conference.
  erewrite foldl_ext_step; [by rewrite foldl_collect|].
  intros filtered paper. unfold conference_step.
  by destruct (paper_conference paper).
Qed.

End MoreFilterFacts.





(** ** Truncation *)

(** X3.  [limit_papers] returns the slice [papers[:limit]]: for a limit
    that is not negative the first [limit] papers (all of them when there
    are fewer), and for a negative limit all papers but the last [-limit]
    ones, not the empty list and not the whole list. *)
Theorem limit_papers_slice_prefix {D : Type} (papers : list (Paper_ D))
    (limit : Z) :
  (0 ≤ limit →
   limit_papers_slice papers limit = limit_papers papers (Z.to_nat limit)
   ∧ length (limit_papers_slice papers limit)
     = Nat.min (Z.to_nat limit) (length papers))
  ∧ (limit < 0 →
     limit_papers_slice papers limit
     = take (length papers - Z.to_nat (- limit)) papers
     ∧ length (limit_papers_slice papers limit)
       = (length papers - Z.to_nat (- limit))%nat).
Proof.
  unfold limit_papers_slice, limit_papers, PySeq.slice, PySeq.adjust_index.
  assert ((0 <? 0) = false) as -> by done.
  rewrite (Z.min_l 0) by lia. simpl Z.to_nat. rewrite drop_0, Z.sub_0_r.
  split; intros Hl.
  - destruct (Z.ltb_spec limit 0) as [?|_]; [lia|].
    assert (take (Z.to_nat (Z.min limit (Z.of_nat (length papers)))) papers
            = take (Z.to_nat limit) papers) as ->.
    { destruct (Z.le_ge_cases limit (Z.of_nat (length papers))).
      - by rewrite Z.min_l.
      - rewrite Z.min_r, Nat2Z.id by done.
        rewrite firstn_all. symmetry. apply take_ge. lia. }
    split; [done|]. by rewrite length_take.
  - destruct (Z.ltb_spec limit 0) as [_|?]; [|lia].
    assert (Z.to_nat (Z.max (limit + Z.of_nat (length papers)) 0)
            = (length papers - Z.to_nat (- limit))%nat) as -> by lia.
    split; [done|]. rewrite length_take. lia.
Qed.

Lemma limit_papers_slice_prefix_witness :
  limit_papers_slice [attention; survey; undated] 2 = [attention; survey]
  ∧ limit_papers_slice [attention; survey; undated] (-1)
    = [attention; survey].
Proof.
  destruct (limit_papers_slice_prefix [attention; survey; undated] 2)
    as [H1 _].
  destruct (limit_papers_slice_prefix [attention; survey; undated] (-1))
    as [_ H2].
  destruct (H1 ltac:(lia)) as [-> _]. destruct (H2 ltac:(lia)) as [-> _].
  split; reflexivity.
Defined.

(** ** Keyword scores *)

Module ScoreFacts.
Import PyStr PySeq.

Lemma count_from_contains (a : ascii) (sub s : string) :
  (0 < count_from (String a sub) 0 s)%nat
  ↔ contains (String a sub) s = true.
Proof.
  induction s as [|c s IH].
  - simpl. split; [lia|done].
  - change (count_from (String a sub) 0 (String c s))
      with (if startswith (String c s) (String a sub)
            then S (count_from (String a sub)
                      (String.length (String a sub) - 1) s)
            else count_from (String a sub) 0 s).
    change (contains (String a sub) (String c s))
      with (startswith (String c s) (String a sub)
            || contains (String a sub) s).
    destruct (startswith (String c s) (String a sub)); simpl.
    + split; [done|lia].
    + exact IH.
Qed.

(** A substring is counted at least once exactly when it occurs. *)
Lemma count_pos (s sub : string) :
  (0 < count s sub)%nat ↔ contains sub s = true.
Proof.
  destruct sub as [|a sub].
  - simpl. split; [|lia]. intros _. by destruct s.
  - unfold count. apply count_from_contains.
Qed.
End ScoreFacts.

Section ScoreSum.
Context {D : Type}.
Implicit Types (paper : Paper_ D).

Lemma score_fold_pos paper (kws : list string) : ∀ acc : nat,
  (acc < foldl (score_step paper) acc kws)%nat
  ↔ ∃ kw, kw ∈ kws
          ∧ (PyStr.contains kw (PyStr.lower (paper_title paper)) = true
             ∨ PyStr.contains kw (text_clean paper) = true).
Proof.
  assert (∀ (l : list string) acc,
            (acc ≤ foldl (score_step paper) acc l)%nat) as Hmono.
  { induction l as [|k l IH]; intros acc; simpl; [done|].
    etrans; [|apply IH]. unfold score_step. lia. }
  induction kws as [|kw kws IH]; intros acc; simpl.
  - split; [lia|]. intros (kw & Hkw & _). by apply elem_of_nil in Hkw.
  - pose proof (ScoreFacts.count_pos (PyStr.lower (paper_title paper)) kw)
      as Ht.
    pose proof (ScoreFacts.count_pos (text_clean paper) kw) as Hc.
    pose proof (Hmono kws (score_step paper acc kw)) as Hm.
    split.
    + intros Hlt.
      destruct (decide (acc < score_step paper acc kw)%nat) as [Hs|Hs].
      * exists kw. split; [apply elem_of_cons; by left|].
        unfold score_step in Hs.
        destruct (decide (0 < PySeq.count
                            (PyStr.lower (paper_title paper)) kw)%nat);
          [left; tauto|right; apply Hc; lia].
      * assert (score_step paper acc kw = acc) as Heq
          by (unfold score_step in *; lia).
        rewrite Heq in Hlt. apply IH in Hlt as (k & ? & ?).
        exists k. split; [apply elem_of_cons; by right|done].
    + intros (k & [->|Hk]%elem_of_cons & Hocc).
      * assert (acc < score_step paper acc kw)%nat; [|lia].
        unfold score_step.
        destruct Hocc as [H|H]; [apply Ht in H|apply Hc in H]; lia.
      * assert (score_step paper acc kw
                < foldl (score_step paper) (score_step paper acc kw) kws)%nat
          by (apply IH; eauto).
        unfold score_step in *. lia.
Qed.
End ScoreSum.

(** X4.  The keyword score of a paper is positive exactly when one of the
    prepared keywords (trimmed, lower-cased, blank ones dropped) occurs in
    the lower-cased title or in the cleaned text; so every paper the
    keyword filter keeps under "any" has a positive score, and the score is
    [0] when no keyword is given. *)
Theorem keyword_score_positive {D : Type} (paper : Paper_ D)
    (keywords : list string) :
  ((0 < get_keyword_match_score paper keywords)%nat
   ↔ ∃ kw, kw ∈ prepare_keywords keywords
           ∧ (PyStr.contains kw (PyStr.lower (paper_title paper)) = true
              ∨ PyStr.contains kw (text_clean paper) = true))
  ∧ (paper ∈ filter_by_keywords [paper] keywords "any" → keywords ≠ [] →
     (0 < get_keyword_match_score paper keywords)%nat).
Proof.
  assert ((0 < get_keyword_match_score paper keywords)%nat
          ↔ ∃ kw, kw ∈ prepare_keywords keywords
                  ∧ (PyStr.contains kw (PyStr.lower (paper_title paper)) = true
                     ∨ PyStr.contains kw (text_clean paper) = true)) as Hpos.
  { destruct keywords as [|k ks].
    - simpl. split; [lia|]. intros (kw & Hkw & _).
      by apply elem_of_nil in Hkw.
    - unfold get_keyword_match_score. apply score_fold_pos. }
  split; [exact Hpos|].
  intros Hin Hne. apply Hpos.
  rewrite filter_by_keywords_filter in Hin.
  destruct keywords as [|k ks]; [done|].
  apply filter_elem_of in Hin as [_ Hm]. unfold keyword_match in Hm.
  simpl in Hm. apply existsb_exists in Hm as (kw & Hkw%list_elem_of_In & Hc).
  eauto.
Qed.

Lemma keyword_score_positive_witness :
  (0 < get_keyword_match_score attention [" Attention "])%nat
  ∧ get_keyword_match_score attention [" Attention "] = 5%nat.
Proof.
  destruct (keyword_score_positive attention [" Attention "]) as [_ H].
  split; [|vm_compute; reflexivity].
  apply H; [|discriminate].
  assert (filter_by_keywords [attention] [" Attention "] "any" = [attention])
    as -> by (vm_compute; reflexivity).
  apply list_elem_of_singleton. reflexivity.
Defined.

(** ** More on sorting *)

Section SortedMore.
Context {A K : Type} (key : A → K) (le : K → K → bool).
Hypothesis le_total : ∀ a b, le a b = false → le b a = true.
Hypothesis le_trans :
  ∀ a b c, le a b = true → le b c = true → le a c = true.

Lemma le_refl (a : K) : le a a = true.
Proof. destruct (le a a) eqn:E; [done|]. by rewrite (le_total a a E) in E. Qed.

(** A list in order is left as it is. *)
Lemma sorted_fixed reverse (l : list A) :
  StronglySorted (stands_before key le reverse) l →
  sorted key le reverse l = l.
Proof.
  induction 1 as [|x l Hl IH Hx]; simpl; [done|].
  fold (sorted key le reverse l). rewrite IH.
  destruct l as [|y l]; [done|]. simpl.
  apply Forall_cons in Hx as [Hxy _]. unfold stands_before in Hxy.
  by rewrite Hxy.
Qed.

Lemma sorted_idem reverse (l : list A) :
  sorted key le reverse (sorted key le reverse l) = sorted key le reverse l.
Proof. apply sorted_fixed. by apply sorted_strongly. Qed.

(** Elements with the same key keep their order. *)
Lemma insert_sorted_stable `{EqDecision K} reverse (x : A) (l : list A)
    (k : K) :
  List.filter (λ y, bool_decide (key y = k)) (insert_sorted key le reverse x l)
  = List.filter (λ y, bool_decide (key y = k)) (x :: l).
Proof.
  induction l as [|y r IH]; [done|]. simpl.
  destruct (goes_before key le reverse x y) eqn:E; [done|].
  simpl. rewrite IH. simpl.
  destruct (bool_decide (key x = k)) eqn:Hx; [|done].
  destruct (bool_decide (key y = k)) eqn:Hy; [|done].
  apply bool_decide_eq_true in Hx, Hy.
  unfold goes_before in E. rewrite Hx, Hy in E.
  destruct reverse; by rewrite le_refl in E.
Qed.

Lemma sorted_stable `{EqDecision K} reverse (l : list A) (k : K) :
  List.filter (λ y, bool_decide (key y = k)) (sorted key le reverse l)
  = List.filter (λ y, bool_decide (key y = k)) l.
Proof.
  induction l as [|x l IH]; [done|]. simpl.
  fold (sorted key le reverse l). rewrite insert_sorted_stable. simpl.
  by rewrite IH.
Qed.
End SortedMore.

Lemma string_leb_total (a b : string) :
  String.leb a b = false → String.leb b a = true.
Proof. destruct (String.leb_total a b); congruence. Qed.

Lemma string_leb_trans (a b c : string) :
  String.leb a b = true → String.leb b c = true → String.leb a c = true.
Proof.
  intros H1%Is_true_true H2%Is_true_true. apply Is_true_true.
  change (String.le a c). by trans b.
Qed.

Lemma nat_leb_total (a b : nat) : Nat.leb a b = false → Nat.leb b a = true.
Proof. rewrite Nat.leb_gt, Nat.leb_le. lia. Qed.

Lemma nat_leb_trans (a b c : nat) :
  Nat.leb a b = true → Nat.leb b c = true → Nat.leb a c = true.
Proof. rewrite !Nat.leb_le. lia. Qed.

(** [sort_papers] is one of four cases. *)
Lemma sort_papers_cases (papers : list Paper) (sort_by : string)
    (reverse : bool) :
  sort_by = "date"
    ∧ sort_papers papers sort_by reverse
      = sorted date_key Datetime.leb reverse papers
  ∨ sort_by = "title"
    ∧ sort_papers papers sort_by reverse
      = sorted title_key String.leb reverse papers
  ∨ sort_by = "authors"
    ∧ sort_papers papers sort_by reverse
      = sorted authors_key String.leb reverse papers
  ∨ (sort_by ≠ "date" ∧ sort_by ≠ "title" ∧ sort_by ≠ "authors")
    ∧ sort_papers papers sort_by reverse = papers.
Proof.
  unfold sort_papers.
  destruct (String.eqb_spec sort_by "date"); [by left|].
  destruct (String.eqb_spec sort_by "title"); [by right; left|].
  destruct (String.eqb_spec sort_by "authors"); [by right; right; left|].
  by right; right; right.
Qed.

(** X5.  For every sort key and direction [sort_papers] returns a
    permutation of its input, no paper lost and none repeated; sorting the
    result again changes nothing; and a sort key other than "date",
    "title" and "authors" leaves the list as it is. *)
Theorem sort_papers_permutation (papers : list Paper) (sort_by : string)
    (reverse : bool) :
  sort_papers papers sort_by reverse ≡ₚ papers
  ∧ sort_papers (sort_papers papers sort_by reverse) sort_by reverse
    = sort_papers papers sort_by reverse
  ∧ (sort_by ≠ "date" → sort_by ≠ "title" → sort_by ≠ "authors" →
     sort_papers papers sort_by reverse = papers).
Proof.
  destruct (sort_papers_cases papers sort_by reverse)
    as [[-> H]|[[-> H]|[[-> H]|[(? & ? & ?) H]]]]; rewrite H.
  - split; [apply sorted_perm|]. split; [|done].
    unfold sort_papers. simpl.
    apply sorted_idem;
      [apply DatetimeFacts.leb_total | apply DatetimeFacts.leb_trans].
  - split; [apply sorted_perm|]. split; [|done].
    unfold sort_papers. simpl.
    apply (sorted_idem title_key String.leb);
      [apply string_leb_total | apply string_leb_trans].
  - split; [apply sorted_perm|]. split; [|done].
    unfold sort_papers. simpl.
    apply (sorted_idem authors_key String.leb);
      [apply string_leb_total | apply string_leb_trans].
  - split; [done|]. split; [|done].
    destruct (sort_papers_cases papers sort_by reverse)
      as [[? _]|[[? _]|[[? _]|[_ H']]]]; done.
Qed.

Lemma sort_papers_permutation_witness :
  sort_papers [survey; undated; attention] "citations" true
  = [survey; undated; attention]
  ∧ sort_papers [survey; undated; attention] "title" false
    = [survey; attention; undated].
Proof.
  destruct (sort_papers_permutation [survey; undated; attention]
              "citations" true) as (_ & _ & H).
  split; [apply H; discriminate|]. vm_compute. reflexivity.
Defined.

(** X6.  [sort_papers] is stable in both directions: papers with the same
    sort key keep the order they had in the input; in the date order this
    holds in particular for all papers without a date. *)
Theorem sort_papers_stable (papers : list Paper) (reverse : bool) :
  (∀ k : datetime,
     List.filter (λ p, bool_decide (date_key p = k))
       (sort_papers papers "date" reverse)
     = List.filter (λ p, bool_decide (date_key p = k)) papers)
  ∧ (∀ k : string,
       List.filter (λ p, bool_decide (title_key p = k))
         (sort_papers papers "title" reverse)
       = List.filter (λ p, bool_decide (title_key p = k)) papers)
  ∧ (∀ k : string,
       List.filter (λ p, bool_decide (authors_key p = k))
         (sort_papers papers "authors" reverse)
       = List.filter (λ p, bool_decide (authors_key p = k)) papers)
  ∧ List.filter (λ p, bool_decide (published_date p = None))
      (sort_papers papers "date" reverse)
    = List.filter (λ p, bool_decide (published_date p = None)) papers.
Proof.
  assert (∀ k : datetime,
            List.filter (λ p, bool_decide (date_key p = k))
              (sort_papers papers "date" reverse)
            = List.filter (λ p, bool_decide (date_key p = k)) papers)
    as Hdate.
  { intros k. unfold sort_papers. simpl.
    apply sorted_stable. apply DatetimeFacts.leb_total. }
  split; [exact Hdate|]. split; [|split].
  - intros k. unfold sort_papers. simpl.
    apply (sorted_stable title_key String.leb string_leb_total).
  - intros k. unfold sort_papers. simpl.
    apply (sorted_stable authors_key String.leb string_leb_total).
  - (* the undated papers are among those with the key 1970-01-01 *)
    assert (∀ l : list Paper,
              List.filter (λ p, bool_decide (published_date p = None)) l
              = List.filter (λ p, bool_decide (published_date p = None))
                  (List.filter
                     (λ p, bool_decide (date_key p = Datetime.epoch)) l))
      as Hsub.
    { induction l as [|p l IH]; [done|]. simpl.
      destruct (bool_decide (published_date p = None)) eqn:Hn.
      - apply bool_decide_eq_true in Hn.
        rewrite (bool_decide_eq_true_2 (date_key p = Datetime.epoch))
          by (unfold date_key; by rewrite Hn).
        simpl. rewrite bool_decide_eq_true_2 by done. by rewrite IH.
      - destruct (bool_decide (date_key p = Datetime.epoch)); [|done].
        simpl. by rewrite Hn. }
    rewrite (Hsub (sort_papers papers "date" reverse)), Hdate.
    by rewrite <- Hsub.
Qed.

(** ** Ranking by keyword score *)

Section RankFacts.
Context {D : Type}.
Implicit Types (papers : list (Paper_ D)) (keywords : list string).

Lemma rank_by_keyword_match_unfold papers keywords :
  rank_by_keyword_match papers keywords
  = fst <$> sorted snd Nat.leb true (score_pair keywords <$> papers).
Proof. done. Qed.

Lemma fst_score_pairs papers keywords :
  fst <$> (score_pair keywords <$> papers) = papers.
Proof.
  induction papers as [|p l IH]; [done|].
  rewrite !fmap_cons. by rewrite IH.
Qed.

(** Every pair of the sorted list still carries the score of its paper. *)
Lemma sorted_pairs_scored papers keywords (i : nat) (p : Paper_ D) :
  rank_by_keyword_match papers keywords !! i = Some p →
  sorted snd Nat.leb true (score_pair keywords <$> papers) !! i
  = Some (p, get_keyword_match_score p keywords).
Proof.
  rewrite rank_by_keyword_match_unfold, list_lookup_fmap.
  destruct (sorted snd Nat.leb true (score_pair keywords <$> papers) !! i)
    as [[q n]|] eqn:E; [|done].
  simpl. intros [= ->]. f_equal.
  assert ((p, n) ∈ score_pair keywords <$> papers) as Hin.
  { rewrite <- (sorted_perm snd Nat.leb true).
    apply list_elem_of_lookup. eauto. }
  apply list_elem_of_fmap in Hin as (q & [= -> ->] & _). done.
Qed.
End RankFacts.

(** X7.  [rank_by_keyword_match] returns a permutation of the papers in
    which the keyword scores never increase from one paper to the next, so
    a paper that holds a keyword stands before every paper that holds none;
    with an empty keyword list the papers come back in their order. *)
Theorem rank_by_keyword_match_descending {D : Type}
    (papers : list (Paper_ D)) (keywords : list string) :
  rank_by_keyword_match papers keywords ≡ₚ papers
  ∧ (∀ (i j : nat) (p q : Paper_ D),
       (i < j)%nat →
       rank_by_keyword_match papers keywords !! i = Some p →
       rank_by_keyword_match papers keywords !! j = Some q →
       (get_keyword_match_score q keywords
        ≤ get_keyword_match_score p keywords)%nat)
  ∧ rank_by_keyword_match papers [] = papers.
Proof.
  split; [|split].
  - rewrite rank_by_keyword_match_unfold.
    rewrite (sorted_perm snd Nat.leb true). by rewrite fst_score_pairs.
  - intros i j p q Hij Hp%sorted_pairs_scored Hq%sorted_pairs_scored.
    pose proof (sorted_strongly snd Nat.leb nat_leb_total nat_leb_trans true
                  (score_pair keywords <$> papers)) as Hs.
    pose proof (StronglySorted_lookup _ _ Hs i j _ _ Hij Hp Hq) as Hle.
    unfold stands_before, goes_before in Hle. simpl in Hle.
    by apply Nat.leb_le in Hle.
  - rewrite rank_by_keyword_match_unfold.
    rewrite (sorted_fixed snd Nat.leb); [apply fst_score_pairs|].
    induction papers as [|p l IH]; [constructor|].
    rewrite fmap_cons. constructor; [exact IH|].
    apply Forall_forall. intros [q n] Hq.
    apply list_elem_of_fmap in Hq as (q' & [= -> ->] & _). done.
Qed.

Lemma rank_by_keyword_match_descending_witness :
  rank_by_keyword_match [survey; undated; attention] ["attention"; "paper"]
  = [attention; survey; undated]
  ∧ (get_keyword_match_score undated ["attention"; "paper"]
     ≤ get_keyword_match_score attention ["attention"; "paper"])%nat.
Proof.
  destruct (rank_by_keyword_match_descending [survey; undated; attention]
              ["attention"; "paper"]) as (_ & H & _).
  split; [vm_compute; reflexivity|].
  apply (H 0%nat 2%nat attention undated); [lia|..];
    vm_compute; reflexivity.
Defined.

(** ** The filters commute *)

(** X8.  The filters can be applied in any order: filtering by keywords,
    by categories, by conference and by date commute pairwise, whatever
    their arguments. *)
Theorem filters_commute (papers : list Paper) (keywords : list string)
    (match_type : string) (categories conferences : list string)
    (min_date max_date : option datetime) :
  filter_by_categories (filter_by_keywords papers keywords match_type)
    categories
  = filter_by_keywords (filter_by_categories papers categories)
      keywords match_type
  ∧ filter_by_conference (filter_by_keywords papers keywords match_type)
      conferences
    = filter_by_keywords (filter_by_conference papers conferences)
        keywords match_type
  ∧ filter_by_conference (filter_by_categories papers categories)
      conferences
    = filter_by_categories (filter_by_conference papers conferences)
        categories
  ∧ filter_by_date (filter_by_keywords papers keywords match_type)
      min_date max_date
    = filter_by_keywords (filter_by_date papers min_date max_date)
        keywords match_type
  ∧ filter_by_date (filter_by_categories papers categories)
      min_date max_date
    = filter_by_categories (filter_by_date papers min_date max_date)
        categories.
Proof.
  assert (∀ l : list Paper,
            filter_by_date l min_date max_date
            = match min_date, max_date with
              | None, None => l
              | _, _ => List.filter (in_date_range min_date max_date) l
              end) as Hdate.
  { intros l. unfold filter_by_date.
    destruct min_date as [m|], max_date as [M|]; try done;
      (erewrite foldl_ext_step; [|apply date_step_in_range]);
      by rewrite foldl_collect. }
  rewrite !filter_by_categories_filter, !filter_by_conference_filter,
    !filter_by_keywords_filter, !Hdate.
  destruct keywords as [|kw kws], categories as [|c cs],
    conferences as [|f fs], min_date as [m|], max_date as [M|];
    repeat split; try done; apply filter_comm.
Qed.

(** ** Saving and loading *)

Lemma save_papers_stored (papers : list PyPaper) (filepath : string)
    (fs : filesystem) :
  writable fs filepath = true →
  stored_papers filepath (save_papers papers filepath fs).1
  = to_json <$> papers.
Proof.
  intros Hw. unfold save_papers. rewrite Hw. simpl.
  unfold stored_papers, write_file. simpl. by rewrite lookup_insert_eq.
Qed.

Lemma write_file_same (filepath : string) (ps : list JsonPaper)
    (fs : filesystem) :
  files fs !! filepath = Some (JsonPapers ps) →
  write_file filepath (JsonPapers ps) fs = fs.
Proof.
  intros Hf. destruct fs as [m w]. unfold write_file. simpl in *.
  f_equal. by apply insert_id.
Qed.

(** ** Appending again, and appending a fresh batch *)

Lemma append_papers_stored (papers : list PyPaper) (filepath : string)
    (fs : filesystem) :
  writable fs filepath = true →
  stored_papers filepath (append_papers papers filepath fs).1
  = stored_papers filepath fs
      ++ (to_json <$> accepted (load_papers filepath fs) papers).
Proof.
  intros Hw. unfold append_papers.
  rewrite save_papers_stored, append_loop_accepted, fmap_app by done.
  by rewrite load_papers_stored, to_json_of_json_list.
Qed.

Lemma append_papers_load (papers : list PyPaper) (filepath : string)
    (fs : filesystem) :
  writable fs filepath = true →
  load_papers filepath (append_papers papers filepath fs).1
  = load_papers filepath fs
      ++ (of_json <$> (to_json <$> accepted (load_papers filepath fs) papers)).
Proof.
  intros Hw.
  rewrite (load_papers_stored filepath (append_papers papers filepath fs).1).
  rewrite append_papers_stored, fmap_app by done.
  by rewrite <- load_papers_stored.
Qed.

Lemma truthy_id_json (p : PyPaper) : truthy_id (of_json (to_json p)) = truthy_id p.
Proof. done. Qed.

Lemma truthy_title_json (p : PyPaper) :
  truthy_title (of_json (to_json p)) = truthy_title p.
Proof. done. Qed.

Lemma omap_json (f : PyPaper → option string) (l : list PyPaper) :
  (∀ p, f (of_json (to_json p)) = f p) →
  omap f (of_json <$> (to_json <$> l)) = omap f l.
Proof.
  intros Hf. induction l as [|p l IH]; [done|].
  rewrite !fmap_cons.
  change (omap f (of_json (to_json p) :: (of_json <$> (to_json <$> l))))
    with (match f (of_json (to_json p)) with
          | Some k => k :: omap f (of_json <$> (to_json <$> l))
          | None => omap f (of_json <$> (to_json <$> l))
          end).
  rewrite Hf, IH. done.
Qed.

(** Rejection looks at the truthy ids and titles of the bucket only. *)
Lemma rejected_by_ext (s1 s2 : list PyPaper) (p : PyPaper) :
  omap truthy_id s1 = omap truthy_id s2 →
  omap truthy_title s1 = omap truthy_title s2 →
  rejected_by s1 p = rejected_by s2 p.
Proof.
  intros Hi Ht. apply Bool.eq_iff_eq_true.
  by rewrite !rejected_by_spec, Hi, Ht.
Qed.

Lemma accepted_ext (papers : list PyPaper) : ∀ s1 s2 : list PyPaper,
  omap truthy_id s1 = omap truthy_id s2 →
  omap truthy_title s1 = omap truthy_title s2 →
  accepted s1 papers = accepted s2 papers.
Proof.
  induction papers as [|p r IH]; intros s1 s2 Hi Ht; simpl; [done|].
  rewrite (rejected_by_ext s1 s2 p Hi Ht).
  destruct (rejected_by s2 p); [by apply IH|].
  f_equal. apply IH; rewrite !omap_app; by f_equal.
Qed.

Lemma rejected_by_app_l (s t : list PyPaper) (p : PyPaper) :
  rejected_by s p = true → rejected_by (s ++ t) p = true.
Proof.
  unfold rejected_by. rewrite existsb_app. intros ->. done.
Qed.

Lemma rejected_by_app_r (s t : list PyPaper) (p : PyPaper) :
  rejected_by t p = true → rejected_by (s ++ t) p = true.
Proof.
  unfold rejected_by. rewrite existsb_app. intros ->. apply orb_true_r.
Qed.

(** A paper with a truthy id or title is rejected by a bucket holding it. *)
Lemma rejected_by_self (s : list PyPaper) (p : PyPaper) :
  p ∈ s → truthy_id p ≠ None ∨ truthy_title p ≠ None →
  rejected_by s p = true.
Proof.
  intros Hin Hkey. apply rejected_by_spec.
  destruct (truthy_id p) as [k|] eqn:Hi.
  - left. exists k. split; [done|]. apply list_elem_of_omap. eauto.
  - destruct (truthy_title p) as [k|] eqn:Ht; [|by destruct Hkey].
    right. exists k. split; [done|]. apply list_elem_of_omap. eauto.
Qed.

Lemma accepted_all_rejected (papers : list PyPaper) (stored : list PyPaper) :
  (∀ p, p ∈ papers → rejected_by stored p = true) →
  accepted stored papers = [].
Proof.
  induction papers as [|p r IH]; intros Hall; simpl; [done|].
  rewrite (Hall p) by (apply elem_of_cons; by left).
  apply IH. intros q Hq. apply Hall, elem_of_cons. by right.
Qed.

(** After an append every keyed paper of the batch is rejected. *)
Lemma accepted_covers (papers : list PyPaper) : ∀ (old : list PyPaper) p,
  p ∈ papers → truthy_id p ≠ None ∨ truthy_title p ≠ None →
  rejected_by (old ++ accepted old papers) p = true.
Proof.
  induction papers as [|q r IH]; intros old p Hin Hkey.
  - by apply elem_of_nil in Hin.
  - simpl. destruct (rejected_by old q) eqn:Hrej.
    + apply elem_of_cons in Hin as [->|Hin]; [by apply rejected_by_app_l|].
      by apply IH.
    + change (q :: accepted (old ++ [q]) r)
        with ([q] ++ accepted (old ++ [q]) r).
      rewrite app_assoc.
      apply elem_of_cons in Hin as [->|Hin]; [|by apply IH].
      apply rejected_by_app_l, rejected_by_self; [|done].
      apply elem_of_app. right. by apply list_elem_of_singleton.
Qed.

(** X10.  Appending the same batch a second time adds nothing, provided
    every paper of the batch has a truthy [id] or a truthy [title]: the
    second [append_papers] reports success and leaves the disk as the
    first left it. *)
Theorem append_papers_again (papers : list PyPaper) (filepath : string)
    (fs : filesystem) :
  writable fs filepath = true →
  (∀ p, p ∈ papers → truthy_id p ≠ None ∨ truthy_title p ≠ None) →
  let fs1 := (append_papers papers filepath fs).1 in
  append_papers papers filepath fs1 = (fs1, true).
Proof.
  intros Hw Hkeyed fs1.
  assert (writable fs1 filepath = true) as Hw1
    by (unfold fs1, append_papers, save_papers; by rewrite Hw).
  assert (accepted (load_papers filepath fs1) papers = []) as Hnone.
  { unfold fs1. rewrite append_papers_load by done.
    set (old := load_papers filepath fs).
    rewrite (accepted_ext papers _ (old ++ accepted old papers)).
    - apply accepted_all_rejected. intros p Hp.
      apply accepted_covers; auto.
    - rewrite !omap_app. f_equal. apply omap_json, truthy_id_json.
    - rewrite !omap_app. f_equal. apply omap_json, truthy_title_json. }
  unfold append_papers, save_papers. rewrite Hw1. f_equal.
  apply write_file_same.
  rewrite append_loop_accepted, Hnone, app_nil_r.
  rewrite load_papers_stored, to_json_of_json_list.
  unfold stored_papers, fs1, append_papers, save_papers. rewrite Hw. simpl.
  by rewrite lookup_insert_eq.
Qed.

Lemma append_papers_again_witness :
  append_papers [of_adapter attention; of_adapter survey; deep_learning]
    week_01
    (append_papers [of_adapter attention; of_adapter survey; deep_learning]
       week_01 bucket_fs).1
  = ((append_papers [of_adapter attention; of_adapter survey; deep_learning]
        week_01 bucket_fs).1, true).
Proof.
  apply (append_papers_again
           [of_adapter attention; of_adapter survey; deep_learning]
           week_01 bucket_fs eq_refl).
  intros p Hp.
  apply elem_of_cons in Hp as [->|Hp]; [left; discriminate|].
  apply elem_of_cons in Hp as [->|Hp]; [left; discriminate|].
  apply list_elem_of_singleton in Hp as ->. right. discriminate.
Defined.

Lemma omap_cons_key (f : PyPaper → option string) (p : PyPaper)
    (l : list PyPaper) :
  omap f (p :: l)
  = match f p with Some k => k :: omap f l | None => omap f l end.
Proof. done. Qed.

Lemma not_rejected_by (stored : list PyPaper) (p : PyPaper) :
  (∀ k, truthy_id p = Some k → k ∉ omap truthy_id stored) →
  (∀ k, truthy_title p = Some k → k ∉ omap truthy_title stored) →
  rejected_by stored p = false.
Proof.
  intros Hi Ht. apply not_true_iff_false. rewrite rejected_by_spec.
  intros [(k & Hk & Hin)|(k & Hk & Hin)]; [by apply (Hi k)|by apply (Ht k)].
Qed.

Lemma accepted_fresh (papers : list PyPaper) : ∀ old : list PyPaper,
  NoDup (omap truthy_id papers) → NoDup (omap truthy_title papers) →
  (∀ k, k ∈ omap truthy_id papers → k ∉ omap truthy_id old) →
  (∀ k, k ∈ omap truthy_title papers → k ∉ omap truthy_title old) →
  accepted old papers = papers.
Proof.
  induction papers as [|p r IH]; intros old Hni Hnt Hi Ht; [done|].
  rewrite omap_cons_key in Hni, Hnt, Hi, Ht. simpl.
  rewrite not_rejected_by.
  - f_equal. apply IH.
    + destruct (truthy_id p); [by apply NoDup_cons in Hni as [_ ?]|done].
    + destruct (truthy_title p); [by apply NoDup_cons in Hnt as [_ ?]|done].
    + intros k Hk. rewrite omap_app, elem_of_app. simpl.
      destruct (truthy_id p) as [k0|].
      * apply NoDup_cons in Hni as [Hk0 _].
        intros [Hold|Heq%list_elem_of_singleton]; [|subst; by apply Hk0].
        apply (Hi k); [apply elem_of_cons; by right|done].
      * intros [Hold|Hnil]; [by apply (Hi k)|by apply elem_of_nil in Hnil].
    + intros k Hk. rewrite omap_app, elem_of_app. simpl.
      destruct (truthy_title p) as [k0|].
      * apply NoDup_cons in Hnt as [Hk0 _].
        intros [Hold|Heq%list_elem_of_singleton]; [|subst; by apply Hk0].
        apply (Ht k); [apply elem_of_cons; by right|done].
      * intros [Hold|Hnil]; [by apply (Ht k)|by apply elem_of_nil in Hnil].
  - intros k Hk. apply Hi. rewrite Hk. apply elem_of_cons. by left.
  - intros k Hk. apply Ht. rewrite Hk. apply elem_of_cons. by left.
Qed.

(** X11.  The loop of [append_papers] appends a batch whole, in its
    order, exactly when the truthy ids of the batch are pairwise distinct
    and new to the bucket and so are its truthy titles; two papers with
    different ids and the same title are therefore never both stored. *)
Theorem append_loop_whole_batch (old papers : list PyPaper) :
  existing (append_loop old papers) = old ++ papers
  ↔ NoDup (omap truthy_id papers) ∧ NoDup (omap truthy_title papers)
    ∧ (∀ k, k ∈ omap truthy_id papers → k ∉ omap truthy_id old)
    ∧ (∀ k, k ∈ omap truthy_title papers → k ∉ omap truthy_title old).
Proof.
  rewrite append_loop_accepted. split.
  - intros Heq%app_inv_head.
    destruct (accepted_distinct truthy_id rejected_by_id papers old)
      as [Hni Hi].
    destruct (accepted_distinct truthy_title rejected_by_title papers old)
      as [Hnt Ht].
    rewrite Heq in Hni, Hi, Hnt, Ht. done.
  - intros (Hni & Hnt & Hi & Ht). f_equal. by apply accepted_fresh.
Qed.

Lemma append_loop_whole_batch_witness :
  existing (append_loop [deep_learning] [of_adapter attention;
                                          of_adapter survey])
  = [deep_learning; of_adapter attention; of_adapter survey].
Proof.
  apply (append_loop_whole_batch [deep_learning]
           [of_adapter attention; of_adapter survey]).
  split; [|split; [|split]].
  - vm_compute. repeat constructor; rewrite ?elem_of_cons, ?elem_of_nil;
      intros H; repeat destruct H as [H|H]; done.
  - vm_compute. repeat constructor; rewrite ?elem_of_cons, ?elem_of_nil;
      intros H; repeat destruct H as [H|H]; done.
  - intros k Hk Hold. vm_compute in Hold. by apply elem_of_nil in Hold.
  - intros k Hk Hold. vm_compute in Hk, Hold.
    apply list_elem_of_singleton in Hold as ->.
    repeat (apply elem_of_cons in Hk as [Hk|Hk]; [discriminate|]).
    by apply elem_of_nil in Hk.
Defined.

(** ** The weekly bucket, read back *)

Lemma weekly_filepath_key (weekly_dir : string) (d1 d2 : datetime) :
  year d1 = year d2 → Datetime.iso_week d1 = Datetime.iso_week d2 →
  weekly_filepath weekly_dir d1 = weekly_filepath weekly_dir d2.
Proof. unfold weekly_filepath. by intros -> ->. Qed.

(** X12.  Two run dates with the same calendar year and the same ISO week
    number use one bucket: what a run saves with [save_weekly_papers] is
    what a later run of that week loads with [load_weekly_papers], after
    the papers the bucket already held, new papers in their JSON form. *)
Theorem weekly_bucket_read_back (papers : list PyPaper)
    (weekly_dir : string) (date1 date2 : option datetime)
    (now1 now2 : datetime) (fs : filesystem) :
  let d1 := default now1 date1 in
  let d2 := default now2 date2 in
  year d1 = year d2 → Datetime.iso_week d1 = Datetime.iso_week d2 →
  writable fs (weekly_filepath weekly_dir d1) = true →
  let old := load_weekly_papers weekly_dir date1 now1 fs in
  load_weekly_papers weekly_dir date2 now2
    (save_weekly_papers papers weekly_dir date1 now1 fs).1
  = old ++ (of_json <$> (to_json <$> accepted old papers)).
Proof.
  intros d1 d2 Hy Hw Hwr old.
  unfold load_weekly_papers, save_weekly_papers. fold d1 d2.
  rewrite <- (weekly_filepath_key weekly_dir d1 d2 Hy Hw).
  by apply append_papers_load.
Qed.

Lemma weekly_bucket_read_back_witness :
  load_weekly_papers "data/weekly" None (mkDatetime 2025 1 3 9 0 0 0)
    (save_weekly_papers [of_adapter survey] "data/weekly"
       (Some (Datetime.ymd 2025 1 2)) (Datetime.ymd 2025 1 2) bucket_fs).1
  = of_json <$> (to_json <$> [of_adapter attention; of_adapter survey]).
Proof.
  rewrite (weekly_bucket_read_back [of_adapter survey] "data/weekly"
             (Some (Datetime.ymd 2025 1 2)) None (Datetime.ymd 2025 1 2)
             (mkDatetime 2025 1 3 9 0 0 0) bucket_fs eq_refl eq_refl eq_refl).
  vm_compute. reflexivity.
Defined.

(** ** The retention sweep *)

(** X13.  With a non-negative [max_weeks_to_keep] the sweep of
    [clear_old_weekly_data] never deletes the bucket of the current run
    date (the file [save_weekly_papers] writes at this clock reading), nor
    a bucket of the current year with a week number from the current one
    on, nor any bucket of a later year; and within the current year, when
    a bucket is deleted every bucket with a smaller week number is
    deleted too. *)
Theorem sweep_keeps_current_bucket (now : datetime) (max_weeks_to_keep : Z) :
  0 ≤ max_weeks_to_keep →
  sweep_deletes now max_weeks_to_keep (year now) (Datetime.iso_week now)
  = false
  ∧ (∀ week_number, Datetime.iso_week now ≤ week_number →
       sweep_deletes now max_weeks_to_keep (year now) week_number = false)
  ∧ (∀ year_dir week_number, year now < year_dir →
       sweep_deletes now max_weeks_to_keep year_dir week_number = false)
  ∧ (∀ w w', w' ≤ w →
       sweep_deletes now max_weeks_to_keep (year now) w = true →
       sweep_deletes now max_weeks_to_keep (year now) w' = true).
Proof.
  intros Hmax. unfold sweep_deletes, weeks_ago.
  rewrite Z.eqb_refl. repeat split.
  - apply Z.ltb_ge. lia.
  - intros w Hw. apply Z.ltb_ge. lia.
  - intros y w Hy.
    destruct (Z.eqb_spec y (year now)) as [?|_]; [lia|].
    destruct (Z.ltb_spec y (year now)) as [?|_]; [lia|].
    by apply Z.ltb_ge.
  - intros w w' Hle. rewrite !Z.ltb_lt. lia.
Qed.

Lemma sweep_keeps_current_bucket_witness :
  sweep_deletes (Datetime.ymd 2025 3 14) 4 2025 11 = false
  ∧ sweep_deletes (Datetime.ymd 2025 3 14) 4 2026 1 = false.
Proof.
  destruct (sweep_keeps_current_bucket (Datetime.ymd 2025 3 14) 4
              ltac:(lia)) as (H1 & _ & H3 & _).
  split; [exact H1|]. apply H3. simpl. lia.
Defined.

(** ** Slices from the start *)

Lemma slice_from_start {A : Type} (l : list A) (stop : Z) :
  0 ≤ stop → PySeq.slice 0 stop l = take (Z.to_nat stop) l.
Proof.
  intros Hs. unfold PySeq.slice, PySeq.adjust_index.
  assert ((0 <? 0) = false) as -> by done.
  rewrite (Z.min_l 0) by lia. simpl Z.to_nat. rewrite drop_0, Z.sub_0_r.
  destruct (Z.ltb_spec stop 0) as [?|_]; [lia|].
  destruct (Z.le_ge_cases stop (Z.of_nat (length l))).
  - by rewrite Z.min_l.
  - rewrite Z.min_r, Nat2Z.id by done.
    rewrite firstn_all. symmetry. apply take_ge. lia.
Qed.

(** ** The helpers of the renderer *)



(** ** Random recommendations *)

Lemma sample_at_positions {A : Type} (population : list A) (draw : list nat) :
  Forall (λ i, (i < length population)%nat) draw →
  length (omap (λ i, population !! i) draw) = length draw
  ∧ Forall2 (λ i x, population !! i = Some x) draw
      (omap (λ i, population !! i) draw).
Proof.
  induction 1 as [|i draw Hi Hdraw [IHl IH2]]; [by split; [|constructor]|].
  apply lookup_lt_is_Some in Hi as [x Hx].
  change (omap (λ i, population !! i) (i :: draw))
    with (match population !! i with
          | Some y => y :: omap (λ i, population !! i) draw
          | None => omap (λ i, population !! i) draw
          end).
  rewrite Hx. simpl. split; [by rewrite IHl|by constructor].
Qed.

Lemma source_pool_elem (papers : list Paper) (source : string) (p : Paper) :
  p ∈ source_pool papers source →
  p ∈ papers
  ∧ (source = "conferences" → truthy_opt (paper_conference p) = true)
  ∧ (source = "arxiv" → truthy_opt (paper_conference p) = false).
Proof.
  unfold source_pool.
  destruct (String.eqb_spec source "conferences") as [->|Hc].
  - intros [? ?]%filter_elem_of. by repeat split.
  - destruct (String.eqb_spec source "arxiv") as [->|Ha].
    + intros [? ?%negb_true_iff]%filter_elem_of. by repeat split.
    + intros ?. by repeat split.
Qed.

(** X15.  [select_random_recommendations] returns the empty list when no
    paper passes the source filter, whatever the count; otherwise a
    negative count raises, and for a non-negative count it returns
    [min(count, pool size)] papers taken at distinct positions of the pool,
    each one a paper of the input that passes the source filter: with
    source "conferences" only papers with a conference, with "arxiv" only
    papers without one. *)
Theorem select_random_recommendations_from_pool (papers : list Paper)
    (count : Z) (source : string) (draw : list nat) :
  let pool := source_pool papers source in
  let k := Z.min count (Z.of_nat (length pool)) in
  (pool = [] →
   select_random_recommendations papers count source draw = Some [])
  ∧ (pool ≠ [] → count < 0 →
     select_random_recommendations papers count source draw = None)
  ∧ (pool ≠ [] → 0 ≤ count → valid_draw (length pool) k draw →
     ∃ selected,
       select_random_recommendations papers count source draw
       = Some selected
       ∧ Z.of_nat (length selected) = k
       ∧ Forall2 (λ i p, pool !! i = Some p) draw selected
       ∧ ∀ p, p ∈ selected →
           p ∈ papers
           ∧ (source = "conferences" →
              truthy_opt (paper_conference p) = true)
           ∧ (source = "arxiv" →
              truthy_opt (paper_conference p) = false)).
Proof.
  intros pool k. unfold select_random_recommendations. fold pool.
  split; [by intros ->|]. split.
  - intros Hne Hneg. destruct pool as [|p0 r] eqn:E; [done|].
    unfold sample. destruct (Z.ltb_spec (Z.min count
                               (Z.of_nat (length (p0 :: r)))) 0);
      [done|lia].
  - intros Hne Hcount (Hlen & Hnd & Hlt).
    destruct pool as [|p0 r] eqn:E; [done|]. fold k.
    unfold sample.
    destruct (Z.ltb_spec k 0) as [?|_]; [unfold k in *; lia|].
    destruct (Z.ltb_spec (Z.of_nat (length (p0 :: r))) k) as [?|_];
      [unfold k in *; lia|].
    simpl orb. eexists. split; [done|].
    destruct (sample_at_positions (p0 :: r) draw Hlt) as [Hl H2].
    split; [by rewrite Hl|]. split; [exact H2|].
    intros p Hp. apply (source_pool_elem papers source p).
    fold pool. rewrite E.
    apply list_elem_of_lookup in Hp as [j Hj].
    destruct (Forall2_lookup_r _ _ _ _ _ H2 Hj) as (i & _ & Hi).
    apply list_elem_of_lookup. eauto.
Qed.

Lemma select_random_recommendations_from_pool_witness :
  (∃ selected,
     select_random_recommendations [attention; undated; survey; untitled] 3
       "conferences" [1%nat; 0%nat] = Some selected
     ∧ Z.of_nat (length selected) = 2
     ∧ ∀ p, p ∈ selected → truthy_opt (paper_conference p) = true)
  ∧ select_random_recommendations [attention; survey] 3 "conferences" []
    = Some [].
Proof.
  destruct (select_random_recommendations_from_pool
              [attention; undated; survey; untitled] 3 "conferences"
              [1%nat; 0%nat]) as (_ & _ & H).
  destruct (select_random_recommendations_from_pool
              [attention; survey] 3 "conferences" []) as (H0 & _).
  split; [|apply H0; reflexivity].
  assert (valid_draw 2 2 [1%nat; 0%nat]) as Hv.
  { split; [reflexivity|]. split.
    - repeat constructor; rewrite ?elem_of_cons, ?elem_of_nil; intros Hx;
        repeat destruct Hx as [Hx|Hx]; done.
    - repeat constructor. }
  destruct (H ltac:(discriminate) ltac:(lia) Hv)
    as (selected & Hs & Hl & _ & Hp).
  exists selected. split; [exact Hs|]. split; [exact Hl|].
  intros p Hin. by apply (Hp p Hin).
Defined.

(** ** Environment references in the configuration *)

(** Induction over a configuration value and the values inside it. *)
Lemma config_value_nested_ind (P : config_value → Prop) :
  (∀ items, Forall (λ kv, P kv.2) items → P (VDict items)) →
  (∀ items, Forall P items → P (VList items)) →
  (∀ s, P (VStr s)) →
  (∀ v, P (VScalar v)) →
  ∀ config, P config.
Proof.
  intros Hd Hl Hs Hv. fix IH 1. intros [items|items|s|v].
  - apply Hd. induction items as [|[k c] r IHr]; constructor;
      [apply IH|exact IHr].
  - apply Hl. induction items as [|c r IHr]; constructor;
      [apply IH|exact IHr].
  - apply Hs.
  - apply Hv.
Qed.

Lemma map_fixed {A : Type} (f : A → A) (l : list A) :
  Forall (λ x, f x = x) l → List.map f l = l.
Proof. induction 1 as [|x l Hx _ IH]; simpl; [done|]. by rewrite Hx, IH. Qed.

Lemma map_twice {A : Type} (f : A → A) (l : list A) :
  Forall (λ x, f (f x) = f x) l → List.map f (List.map f l) = List.map f l.
Proof. induction 1 as [|x l Hx _ IH]; simpl; [done|]. by rewrite Hx, IH. Qed.

(** X16.  [_resolve_env_vars] changes nothing when the environment is
    empty, leaves a reference to an unset variable and every string that is
    not as a whole of the form [${NAME}] as they are, and resolves in one
    pass: when no value of the environment is itself of that form,
    resolving a resolved configuration changes nothing. *)
Theorem resolve_env_vars_one_pass (environ : gmap string string)
    (config : config_value) :
  resolve_env_vars ∅ config = config
  ∧ ((∀ name value, environ !! name = Some value →
                    is_reference value = false) →
     resolve_env_vars environ (resolve_env_vars environ config)
     = resolve_env_vars environ config)
  ∧ (∀ s, is_reference s = false →
          resolve_env_vars environ (VStr s) = VStr s)
  ∧ (∀ s, environ !! PySeq.slice_str 2 (-1) s = None →
          resolve_env_vars environ (VStr s) = VStr s).
Proof.
  split; [|split; [|split]].
  - induction config as [items IH|items IH|s|v]
      using config_value_nested_ind; simpl.
    + f_equal. apply (map_fixed (λ kv, (kv.1, resolve_env_vars ∅ kv.2))).
      eapply Forall_impl; [exact IH|]. intros [k c] Hc. simpl in *.
      by rewrite Hc.
    + f_equal. by apply map_fixed.
    + rewrite lookup_empty. simpl. by destruct (is_reference s).
    + done.
  - intros Henv.
    induction config as [items IH|items IH|s|v]
      using config_value_nested_ind; simpl.
    + f_equal.
      apply (map_twice (λ kv, (kv.1, resolve_env_vars environ kv.2))).
      eapply Forall_impl; [exact IH|]. intros [k c] Hc. simpl in *.
      by rewrite Hc.
    + f_equal. by apply map_twice.
    + destruct (is_reference s) eqn:Hs; simpl; [|by rewrite Hs].
      destruct (environ !! PySeq.slice_str 2 (-1) s) as [value|] eqn:Hv;
        simpl.
      * by rewrite (Henv _ _ Hv).
      * by rewrite Hs, Hv.
    + done.
  - intros s Hs. simpl. by rewrite Hs.
  - intros s Hs. simpl. rewrite Hs. simpl. by destruct (is_reference s).
Qed.

Lemma resolve_env_vars_one_pass_witness :
  resolve_env_vars {[ "DEEPSEEK_API_KEY" := "sk-test" ]}
    (VDict [("llm_api_key", VStr "${DEEPSEEK_API_KEY}");
            ("llm_api_base", VStr "${LLM_API_BASE}");
            ("keywords", VList [VStr "llm"; VStr "see ${HOME}"]);
            ("papers_per_day", VScalar (SInt 20))])
  = VDict [("llm_api_key", VStr "sk-test");
           ("llm_api_base", VStr "${LLM_API_BASE}");
           ("keywords", VList [VStr "llm"; VStr "see ${HOME}"]);
           ("papers_per_day", VScalar (SInt 20))]
  ∧ resolve_env_vars {[ "DEEPSEEK_API_KEY" := "sk-test" ]}
      (resolve_env_vars {[ "DEEPSEEK_API_KEY" := "sk-test" ]}
         (VStr "${DEEPSEEK_API_KEY}"))
    = resolve_env_vars {[ "DEEPSEEK_API_KEY" := "sk-test" ]}
        (VStr "${DEEPSEEK_API_KEY}").
Proof.
  split; [vm_compute; reflexivity|].
  destruct (resolve_env_vars_one_pass {[ "DEEPSEEK_API_KEY" := "sk-test" ]}
              (VStr "${DEEPSEEK_API_KEY}")) as (_ & H & _).
  apply H. intros name value Hl.
  apply lookup_singleton_Some in Hl as [_ <-]. reflexivity.
Defined.

(** ** The summary day *)

Module WeekdayFacts.
Import Datetime.

Lemma weekday_range (t : datetime) : 0 ≤ weekday t < 7.
Proof. unfold weekday. apply Z.mod_pos_bound. lia. Qed.

(** Week 1 of every ISO year starts on a Monday. *)
Lemma isoweek1monday_monday (y : Z) : (isoweek1monday y + 6) mod 7 = 0.
Proof.
  unfold isoweek1monday. cbv zeta.
  generalize (ymd2ord y 1 1). intros f.
  destruct (3 <? (f + 6) mod 7); Z.div_mod_to_equations; lia.
Qed.

Lemma days_since_monday (today y : Z) :
  (today - isoweek1monday y) mod 7 = (today + 6) mod 7.
Proof.
  pose proof (isoweek1monday_monday y) as H.
  generalize dependent (isoweek1monday y). intros m H.
  Z.div_mod_to_equations. lia.
Qed.

(** The weekday of [isocalendar] is the one of [weekday], counted from 1. *)
Lemma iso_weekday_weekday (t : datetime) : iso_weekday t = weekday t + 1.
Proof.
  unfold iso_weekday, isocalendar, weekday. cbv zeta.
  repeat match goal with
    | |- context [if ?b then _ else _] => destruct b
    end; simpl; by rewrite days_since_monday.
Qed.

Lemma lower_char_idem (c : ascii) :
  PyStr.lower_char (PyStr.lower_char c) = PyStr.lower_char c.
Proof. destruct c as [[] [] [] [] [] [] [] []]; reflexivity. Qed.

Lemma lower_idem (s : string) : PyStr.lower (PyStr.lower s) = PyStr.lower s.
Proof.
  induction s as [|c s IH]; [done|].
  unfold PyStr.lower in *. simpl. by rewrite lower_char_idem, IH.
Qed.
End WeekdayFacts.

(** X17.  [is_summary_day] compares names without regard to letter case,
    and a day name of the C locale is accepted exactly on the ISO weekday
    it names, Monday being weekday 1 of [isocalendar]: every ISO week has
    one summary day.  A name that is none of the seven is never
    accepted. *)
Theorem is_summary_day_iso_weekday (day_name : string) (now : datetime) :
  1 ≤ iso_weekday now ≤ 7
  ∧ is_summary_day (PyStr.lower day_name) now = is_summary_day day_name now
  ∧ (∀ (i : nat) (name : string),
       DAYNAMES !! i = Some name →
       (is_summary_day name now = true ↔ iso_weekday now = Z.of_nat i + 1))
  ∧ (is_summary_day day_name now = true →
     ∃ name, name ∈ DAYNAMES ∧ PyStr.lower day_name = PyStr.lower name).
Proof.
  pose proof (WeekdayFacts.weekday_range now) as Hr.
  rewrite WeekdayFacts.iso_weekday_weekday.
  unfold is_summary_day, strftime_A.
  split; [lia|]. split; [by rewrite WeekdayFacts.lower_idem|]. split.
  - intros i name Hi.
    assert (weekday now = 0 ∨ weekday now = 1 ∨ weekday now = 2
            ∨ weekday now = 3 ∨ weekday now = 4 ∨ weekday now = 5
            ∨ weekday now = 6) as Hw by lia.
    do 7 (destruct i as [|i]; [injection Hi as <-;
      repeat destruct Hw as [Hw|Hw]; rewrite Hw;
      (split; [intros ?; try discriminate; lia
              |intros ?; try lia; reflexivity])|]).
    by destruct i.
  - intros Heq%String.eqb_eq.
    exists (nth (Z.to_nat (weekday now)) DAYNAMES ""). split; [|done].
    assert (weekday now = 0 ∨ weekday now = 1 ∨ weekday now = 2
            ∨ weekday now = 3 ∨ weekday now = 4 ∨ weekday now = 5
            ∨ weekday now = 6) as Hw by lia.
    unfold DAYNAMES.
    repeat destruct Hw as [Hw|Hw]; rewrite Hw; simpl;
      rewrite ?elem_of_cons; eauto 10.
Qed.

Lemma is_summary_day_iso_weekday_witness :
  is_summary_day "friday" (Datetime.ymd 2025 1 3) = true
  ∧ iso_weekday (Datetime.ymd 2025 1 3) = 5.
Proof.
  destruct (is_summary_day_iso_weekday "friday" (Datetime.ymd 2025 1 3))
    as (_ & _ & H & _).
  split; [reflexivity|].
  apply (H 4%nat "Friday"); reflexivity.
Defined.

(** ** Splitting at a character *)

Module SplitFacts.
Import PySeq Occurs.

Lemma split_char_cons (sep c : ascii) (r : string) :
  split_char sep (String c r)
  = if Ascii.eqb c sep then "" :: split_char sep r
    else match split_char sep r with
         | [] => [String c ""]
         | w :: ws => String c w :: ws
         end.
Proof. done. Qed.

Lemma split_char_nonempty (sep : ascii) (s : string) :
  split_char sep s ≠ [].
Proof.
  induction s as [|c s IH]; [done|]. rewrite split_char_cons.
  destruct (Ascii.eqb c sep); [done|]. by destruct (split_char sep s).
Qed.

(** Without the separator there is one part. *)
Lemma split_char_no_sep (sep : ascii) (s : string) :
  no_char sep s = true → split_char sep s = [s].
Proof.
  induction s as [|c s IH]; [done|].
  rewrite StrFacts.no_char_cons, split_char_cons, (Ascii.eqb_sym c sep).
  intros [Hc Hs]%andb_true_iff. apply negb_true_iff in Hc.
  by rewrite Hc, IH.
Qed.

(** The first part ends at the first separator. *)
Lemma split_char_app (sep : ascii) (a b : string) :
  no_char sep a = true →
  split_char sep (a +:+ String sep b) = a :: split_char sep b.
Proof.
  induction a as [|c a IH].
  - intros _. change ("" +:+ String sep b) with (String sep b).
    by rewrite split_char_cons, Ascii.eqb_refl.
  - rewrite StrFacts.no_char_cons, StrFacts.app_cons, split_char_cons,
      (Ascii.eqb_sym c sep).
    intros [Hc Ha]%andb_true_iff. apply negb_true_iff in Hc.
    by rewrite Hc, IH.
Qed.

Lemma split_char_app_length (sep : ascii) (p s : string) :
  (2 ≤ length (split_char sep (p +:+ String sep s)))%nat.
Proof.
  induction p as [|c p IH].
  - change ("" +:+ String sep s) with (String sep s).
    rewrite split_char_cons, Ascii.eqb_refl. simpl.
    pose proof (split_char_nonempty sep s).
    destruct (split_char sep s); [done|simpl; lia].
  - rewrite StrFacts.app_cons, split_char_cons.
    destruct (Ascii.eqb c sep); [simpl; lia|].
    destruct (split_char sep (p +:+ String sep s)); simpl in *; lia.
Qed.

(** The last part starts after the last separator. *)
Lemma last_split_char_app (sep : ascii) (p s : string) :
  last (split_char sep (p +:+ String sep s)) = last (split_char sep s).
Proof.
  induction p as [|c p IH].
  - change ("" +:+ String sep s) with (String sep s).
    rewrite split_char_cons, Ascii.eqb_refl.
    pose proof (split_char_nonempty sep s).
    by destruct (split_char sep s).
  - rewrite StrFacts.app_cons, split_char_cons.
    pose proof (split_char_app_length sep p s) as Hlen.
    destruct (Ascii.eqb c sep).
    + rewrite <- IH.
      destruct (split_char sep (p +:+ String sep s)) as [|w ws];
        [simpl in Hlen; lia|done].
    + rewrite <- IH.
      destruct (split_char sep (p +:+ String sep s)) as [|w [|w' ws]];
        [simpl in Hlen; lia|simpl in Hlen; lia|done].
Qed.

(** No part holds the separator, nor a character the string lacks. *)
Lemma split_char_parts (c sep : ascii) (s : string) :
  (c = sep ∨ no_char c s = true) →
  Forall (λ w, no_char c w = true) (split_char sep s).
Proof.
  induction s as [|x s IH]; intros Hc.
  - by repeat constructor.
  - rewrite split_char_cons.
    assert (c = sep ∨ no_char c s = true) as Hs.
    { destruct Hc as [?|Hc]; [by left|right].
      rewrite StrFacts.no_char_cons in Hc. by apply andb_true_iff in Hc as [_ ?]. }
    specialize (IH Hs).
    destruct (Ascii.eqb_spec x sep) as [->|Hx]; [by constructor|].
    assert (Ascii.eqb c x = false) as Hcx.
    { destruct Hc as [->|Hc].
      - apply Ascii.eqb_neq. congruence.
      - rewrite StrFacts.no_char_cons in Hc.
        apply andb_true_iff in Hc as [Hc _]. by apply negb_true_iff in Hc. }
    destruct (split_char sep s) as [|w ws]; [|apply Forall_cons in IH as [? ?]];
      constructor; try done; by rewrite StrFacts.no_char_cons, Hcx.
Qed.
End SplitFacts.

(** X18.  The identifier [_parse_arxiv_entry] takes from an entry URL is
    the part after the last ["/"] up to its first ["v"], so it holds
    neither character, and every version of a paper gets the identifier of
    the paper: for an identifier [base] free of ["/"] and ["v"], the URLs
    [.../base] and [.../base] followed by ["v"] and any version give
    [base]. *)
Theorem arxiv_id_of_versions (prefix base version url : string) :
  (Occurs.no_char "/" base = true → Occurs.no_char "v" base = true →
   Occurs.no_char "/" version = true →
   arxiv_id_of (prefix +:+ "/" +:+ base +:+ "v" +:+ version) = base
   ∧ arxiv_id_of (prefix +:+ "/" +:+ base) = base)
  ∧ Occurs.no_char "v" (arxiv_id_of url) = true
  ∧ Occurs.no_char "/" (arxiv_id_of url) = true.
Proof.
  split.
  - intros Hb Hv Hver. unfold arxiv_id_of.
    change (prefix +:+ "/" +:+ base +:+ "v" +:+ version)
      with (prefix +:+ String "/" (base +:+ String "v" version)).
    change (prefix +:+ "/" +:+ base) with (prefix +:+ String "/" base).
    rewrite !SplitFacts.last_split_char_app.
    rewrite (SplitFacts.split_char_no_sep "/" base Hb).
    rewrite (SplitFacts.split_char_no_sep "/" (base +:+ String "v" version)).
    + simpl. rewrite (SplitFacts.split_char_app "v" base version Hv).
      by rewrite (SplitFacts.split_char_no_sep "v" base Hv).
    + rewrite StrFacts.no_char_app, Hb. simpl. exact Hver.
  - unfold arxiv_id_of.
    set (last_part := default "" (last (PySeq.split_char "/" url))).
    assert (Occurs.no_char "/" last_part = true) as Hlast.
    { unfold last_part.
      pose proof (SplitFacts.split_char_parts "/" "/" url (or_introl eq_refl))
        as Hparts.
      destruct (last (PySeq.split_char "/" url)) as [w|] eqn:E; [|done].
      rewrite Forall_forall in Hparts. apply Hparts.
      apply last_Some in E as [l' ->]. apply elem_of_app. right.
      by apply list_elem_of_singleton. }
    pose proof (SplitFacts.split_char_parts "v" "v" last_part
                  (or_introl eq_refl)) as Hv.
    pose proof (SplitFacts.split_char_parts "/" "v" last_part
                  (or_intror Hlast)) as Hs.
    destruct (PySeq.split_char "v" last_part) as [|w ws]; [done|].
    apply Forall_cons in Hv as [? _]. apply Forall_cons in Hs as [? _].
    done.
Qed.

Lemma arxiv_id_of_versions_witness :
  arxiv_id_of "http://arxiv.org/abs/2301.07041v1" = "2301.07041"
  ∧ arxiv_id_of "http://arxiv.org/abs/2301.07041v2" = "2301.07041"
  ∧ arxiv_id_of "http://arxiv.org/abs/2301.07041" = "2301.07041".
Proof.
  destruct (arxiv_id_of_versions "http://arxiv.org/abs" "2301.07041" "1" "")
    as [H1 _].
  destruct (arxiv_id_of_versions "http://arxiv.org/abs" "2301.07041" "2" "")
    as [H2 _].
  destruct (H1 eq_refl eq_refl eq_refl) as [Ha Hc].
  destruct (H2 eq_refl eq_refl eq_refl) as [Hb _].
  split; [exact Ha|]. split; [exact Hb|exact Hc].
Defined.

(** ** The Latest-News pipeline of [main] *)

Lemma slice_sublist {A : Type} (start stop : Z) (l : list A) :
  PySeq.slice start stop l `sublist_of` l.
Proof.
  unfold PySeq.slice. etrans; [apply sublist_take|apply sublist_drop].
Qed.

(** X19.  Steps 3 of [main] compose as follows: the filtered arXiv list is
    a rearrangement of the deduplicated keyword matches; its papers come
    from the fetched list, carry pairwise distinct non-empty identity keys
    and, when keywords are configured, each holds one of them; it is
    ordered newest first; and the Latest-News papers are the first
    [papers_per_day] of it, so the weekly bucket is given every filtered
    paper, also those not shown. *)
Theorem latest_news_pipeline (arxiv_papers : list Paper)
    (keywords : list string) (papers_per_day : Z) :
  let filtered := arxiv_filtered_of arxiv_papers keywords in
  let latest := latest_papers_of arxiv_papers keywords papers_per_day in
  filtered
    ≡ₚ deduplicate_papers (filter_by_keywords arxiv_papers keywords "any")
  ∧ NoDup (dedup_key <$> filtered)
  ∧ (∀ p, p ∈ filtered →
       p ∈ arxiv_papers ∧ PyStr.truthy (dedup_key p) = true
       ∧ (keywords ≠ [] →
          existsb (λ kw, PyStr.contains kw (text_clean p))
            (prepare_keywords keywords) = true))
  ∧ (∀ (i j : nat) (p q : Paper),
       (i < j)%nat → filtered !! i = Some p → filtered !! j = Some q →
       Datetime.leb (date_key q) (date_key p) = true)
  ∧ latest `sublist_of` filtered
  ∧ (0 ≤ papers_per_day →
     latest = take (Z.to_nat papers_per_day) filtered
     ∧ Z.of_nat (length latest) ≤ papers_per_day).
Proof.
  intros filtered latest.
  assert (filtered
            ≡ₚ deduplicate_papers
                 (filter_by_keywords arxiv_papers keywords "any")) as Hperm
    by apply sorted_perm.
  destruct (first_by_key_keys
              (filter_by_keywords arxiv_papers keywords "any") [])
    as [Hin Hnd].
  rewrite <- deduplicate_papers_first in Hin, Hnd.
  split; [exact Hperm|]. split; [by rewrite Hperm|].
  split; [|split; [|split]].
  - intros p Hp. rewrite Hperm in Hp.
    destruct (Hin p Hp) as (Hf & Ht & _).
    rewrite filter_by_keywords_filter in Hf.
    destruct keywords as [|kw kws]; [by repeat split|].
    apply filter_elem_of in Hf as [? Hm]. by repeat split.
  - intros i j p q Hij Hp Hq.
    pose proof (sorted_strongly date_key Datetime.leb
                  DatetimeFacts.leb_total DatetimeFacts.leb_trans true
                  (deduplicate_papers
                     (filter_by_keywords arxiv_papers keywords "any")))
      as Hs.
    apply (StronglySorted_lookup _ _ Hs i j p q Hij Hp Hq).
  - apply slice_sublist.
  - intros Hn. unfold latest, latest_papers_of, limit_papers_slice.
    fold filtered. rewrite slice_from_start by done.
    split; [done|]. rewrite length_take. lia.
Qed.

Lemma latest_news_pipeline_witness :
  latest_papers_of [survey; attention; early_paper; attention]
    ["paper"; "learning"] 2
  = [attention; survey]
  ∧ existsb (λ kw, PyStr.contains kw (text_clean attention))
      (prepare_keywords ["paper"; "learning"]) = true.
Proof.
  destruct (latest_news_pipeline [survey; attention; early_paper; attention]
              ["paper"; "learning"] 2) as (_ & _ & H & _ & _ & H').
  destruct (H' ltac:(lia)) as [-> _].
  split; [vm_compute; reflexivity|].
  apply (H attention); [|discriminate].
  assert (arxiv_filtered_of [survey; attention; early_paper; attention]
            ["paper"; "learning"] = [attention; survey]) as ->
    by (vm_compute; reflexivity).
  apply elem_of_cons. by left.
Defined.

(** ** What the document shows *)

Module ReadmeContent.
Import PyStr Readme StrFacts.

Lemma contains_empty (s : string) : contains "" s = true.
Proof. by destruct s. Qed.

Lemma contains_startswith (sub s : string) :
  startswith s sub = true → contains sub s = true.
Proof. intros H. destruct s; simpl; by rewrite H. Qed.

Lemma startswith_prefix (x r : string) : startswith (x +:+ r) x = true.
Proof.
  induction x as [|c x IH]; [done|].
  rewrite app_cons. simpl. by rewrite Ascii.eqb_refl.
Qed.

Lemma contains_prefix (x r : string) : contains x (x +:+ r) = true.
Proof. apply contains_startswith, startswith_prefix. Qed.

Lemma contains_self (x : string) : contains x x = true.
Proof. rewrite <- (app_nil_r x) at 2. apply contains_prefix. Qed.

Lemma contains_falsy (x s : string) : truthy x = false → contains x s = true.
Proof. destruct x; [intros _; apply contains_empty|done]. Qed.

(** Text that is appended to stays. *)
Ltac stays H :=
  repeat first
    [ exact H
    | apply contains_app_l
    | match goal with
      | |- contains _ (if ?b then _ else _) = true => destruct b
      | |- contains _ (match ?x with _ => _ end) = true => destruct x
      end ].

Lemma latest_entry_shows (i : nat) (paper : Paper) :
  contains (paper_title paper) (latest_entry i paper) = true
  ∧ contains (paper_link paper) (latest_entry i paper) = true
  ∧ contains (paper_summary paper) (latest_entry i paper) = true.
Proof.
  unfold latest_entry. cbv zeta.
  set (s0 := "### " +:+ str_N (N.of_nat i) +:+ ". " +:+ paper_title paper
               +:+ nl +:+ nl).
  assert (contains (paper_title paper) s0 = true) as H0.
  { unfold s0. do 3 apply contains_app_r. apply contains_prefix. }
  split; [stays H0|]. split.
  - apply contains_app_l.
    match goal with
    | |- contains _ (if truthy (paper_summary paper) then ?a +:+ _ else ?a)
         = true =>
        assert (contains (paper_link paper) a = true) as Hl
    end.
    { destruct (truthy (paper_link paper)) eqn:Ht;
        [|by apply contains_falsy].
      apply contains_app_r, contains_app_r, contains_prefix. }
    stays Hl.
  - apply contains_app_l.
    destruct (truthy (paper_summary paper)) eqn:Ht;
      [|by apply contains_falsy].
    apply contains_app_r, contains_prefix.
Qed.

Lemma daily_entry_shows (paper : Paper) :
  contains (paper_title paper) (daily_entry paper) = true
  ∧ contains (paper_link paper) (daily_entry paper) = true
  ∧ contains (paper_summary paper) (daily_entry paper) = true.
Proof.
  unfold daily_entry. cbv zeta.
  set (s0 := "### 🌟 " +:+ paper_title paper +:+ nl +:+ nl).
  assert (contains (paper_title paper) s0 = true) as H0.
  { unfold s0. apply contains_app_r, contains_prefix. }
  split; [stays H0|]. split.
  - match goal with
    | |- contains _ (if truthy (paper_summary paper) then ?a +:+ _ else ?a)
         = true =>
        assert (contains (paper_link paper) a = true) as Hl
    end.
    { destruct (truthy (paper_link paper)) eqn:Ht;
        [|by apply contains_falsy].
      apply contains_app_r, contains_app_r, contains_prefix. }
    stays Hl.
  - destruct (truthy (paper_summary paper)) eqn:Ht;
      [|by apply contains_falsy].
    apply contains_app_r, contains_prefix.
Qed.

Lemma latest_fold_stays (x : string) (papers : list Paper) :
  ∀ (section : string) (i : nat),
    contains x section = true →
    contains x (foldl latest_step (section, i) papers).1 = true.
Proof.
  induction papers as [|p l IH]; intros section i H; [done|].
  simpl. apply IH. by apply contains_app_l.
Qed.

Lemma latest_fold_shows (x : string) (paper : Paper) (papers : list Paper) :
  paper ∈ papers → (∀ i, contains x (latest_entry i paper) = true) →
  ∀ (section : string) (i : nat),
    contains x (foldl latest_step (section, i) papers).1 = true.
Proof.
  intros Hin Hx. induction papers as [|p l IH]; intros section i.
  - by apply elem_of_nil in Hin.
  - simpl. apply elem_of_cons in Hin as [->|Hin]; [|by apply IH].
    apply latest_fold_stays. apply contains_app_r, Hx.
Qed.

Lemma daily_fold_stays (x : string) (papers : list Paper) :
  ∀ section : string,
    contains x section = true →
    contains x (foldl (λ section paper, section +:+ daily_entry paper)
                  section papers) = true.
Proof.
  induction papers as [|p l IH]; intros section H; [done|].
  simpl. apply IH. by apply contains_app_l.
Qed.

Lemma daily_fold_shows (x : string) (paper : Paper) (papers : list Paper) :
  paper ∈ papers → contains x (daily_entry paper) = true →
  ∀ section : string,
    contains x (foldl (λ section paper, section +:+ daily_entry paper)
                  section papers) = true.
Proof.
  intros Hin Hx. induction papers as [|p l IH]; intros section.
  - by apply elem_of_nil in Hin.
  - simpl. apply elem_of_cons in Hin as [->|Hin]; [|by apply IH].
    apply daily_fold_stays. by apply contains_app_r.
Qed.

Lemma latest_section_shows (x : string) (paper : Paper)
    (papers : list Paper) :
  paper ∈ papers → (∀ i, contains x (latest_entry i paper) = true) →
  contains x (generate_latest_news_section papers) = true.
Proof.
  intros Hin Hx. unfold generate_latest_news_section.
  destruct papers as [|p l]; [by apply elem_of_nil in Hin|].
  cbv zeta. by apply (latest_fold_shows x paper).
Qed.

Lemma daily_section_shows (x : string) (paper : Paper)
    (papers : list Paper) :
  paper ∈ papers → contains x (daily_entry paper) = true →
  contains x (generate_daily_recommendation_section papers) = true.
Proof.
  intros Hin Hx. unfold generate_daily_recommendation_section.
  destruct papers as [|p l]; [by apply elem_of_nil in Hin|].
  cbv zeta. apply contains_app_l. by apply (daily_fold_shows x paper).
Qed.

Lemma header_shows (last_updated : string) :
  contains last_updated (header last_updated) = true.
Proof.
  unfold header, header_parts, concat. cbv beta iota delta [foldr].
  do 2 apply contains_app_r. apply contains_app_l.
  do 2 apply contains_app_r. apply contains_prefix.
Qed.

Lemma weekly_section_shows (summary : string) (now : datetime) :
  contains summary (generate_weekly_summary_section summary now) = true.
Proof.
  unfold generate_weekly_summary_section. cbv zeta.
  apply contains_app_l, contains_app_r, contains_self.
Qed.
End ReadmeContent.

(** X20.  The document [generate_readme] returns shows the timestamp it
    was given (the formatted clock reading when none was given), and for
    every Latest-News paper and every recommended paper its title, its
    link and its whole abstract; when the summary is non-empty after
    trimming, the document shows the summary text as given. *)
Theorem generate_readme_shows
    (latest_papers daily_recommendations : list Paper)
    (weekly_summary : string) (last_updated : option string)
    (now : datetime) :
  let doc :=
    Readme.generate_readme latest_papers daily_recommendations weekly_summary
      last_updated now in
  PyStr.contains (Readme.effective_last_updated last_updated now) doc = true
  ∧ (∀ p, p ∈ latest_papers ∨ p ∈ daily_recommendations →
       PyStr.contains (paper_title p) doc = true
       ∧ PyStr.contains (paper_link p) doc = true
       ∧ PyStr.contains (paper_summary p) doc = true)
  ∧ (PyStr.truthy (PyStr.strip weekly_summary) = true →
     PyStr.contains weekly_summary doc = true).
Proof.
  intros doc. unfold doc.
  rewrite ReadmeFacts.generate_readme_sections.
  split; [|split].
  - apply StrFacts.contains_app_l, ReadmeContent.header_shows.
  - intros p [Hp|Hp].
    + pose proof (λ i, ReadmeContent.latest_entry_shows i p) as H.
      repeat split; apply StrFacts.contains_app_r, StrFacts.contains_app_l;
        apply (ReadmeContent.latest_section_shows _ p); try done;
        intros i; by destruct (H i) as (? & ? & ?).
    + destruct (ReadmeContent.daily_entry_shows p) as (? & ? & ?).
      repeat split; do 2 apply StrFacts.contains_app_r;
        apply StrFacts.contains_app_l;
        by apply (ReadmeContent.daily_section_shows _ p).
  - intros ->. do 3 apply StrFacts.contains_app_r.
    apply StrFacts.contains_app_l, ReadmeContent.weekly_section_shows.
Qed.

Lemma generate_readme_shows_witness :
  PyStr.contains "A Survey of Machine Learning"
    (Readme.generate_readme [attention; survey] [undated] " A quiet week. "
       None (mkDatetime 2025 1 2 8 30 0 0)) = true
  ∧ PyStr.contains " A quiet week. "
      (Readme.generate_readme [attention; survey] [undated] " A quiet week. "
         None (mkDatetime 2025 1 2 8 30 0 0)) = true.
Proof.
  destruct (generate_readme_shows [attention; survey] [undated]
              " A quiet week. " None (mkDatetime 2025 1 2 8 30 0 0))
    as (_ & H1 & H2).
  split; [|apply H2; reflexivity].
  apply (H1 survey). left. apply elem_of_cons. right.
  apply elem_of_cons. by left.
Defined.

(** ** Bucket files of different weeks *)


Section BucketPaths.
Import PyStr Numeral.

(** What [os.path.join] puts before a relative second part. *)
Lemma path_join_relative (a b : string) :
  startswith b "/" = false →
  path_join a b
  = (if negb (truthy a) || endswith_slash a then a else a +:+ "/") +:+ b.
Proof.
  intros Hb. unfold path_join. rewrite Hb.
  destruct (negb (truthy a) || endswith_slash a); [done|].
  by rewrite StrFacts.app_assoc.
Qed.

Lemma app_inj_value (pre suf : string) (k1 k2 : nat) (n1 n2 : N) :
  pre +:+ (zeros k1 +:+ str_N n1) +:+ suf
  = pre +:+ (zeros k2 +:+ str_N n2) +:+ suf →
  Occurs.no_char "." (zeros k1 +:+ str_N n1) = true →
  Occurs.no_char "." (zeros k2 +:+ str_N n2) = true →
  (∃ r, suf = String "." r) → n1 = n2.
Proof.
  intros Heq H1 H2 [r ->].
  apply (inj (String.app pre)) in Heq.
  apply (f_equal (PySeq.split_char ".")) in Heq.
  rewrite !SplitFacts.split_char_app in Heq by done.
  injection Heq as Heq.
  apply (f_equal value) in Heq. rewrite !NumeralFacts.value_zeros in Heq.
  congruence.
Qed.
End BucketPaths.

(** X21.  Two run dates use the same bucket file exactly when they have
    the same calendar year and the same ISO week number (for years and
    week numbers that are not negative): buckets of different weeks, and
    of different years, never share a file. *)
Theorem weekly_filepath_same_bucket (weekly_dir : string) (d1 d2 : datetime) :
  0 ≤ year d1 → 0 ≤ year d2 →
  0 ≤ Datetime.iso_week d1 → 0 ≤ Datetime.iso_week d2 →
  weekly_filepath weekly_dir d1 = weekly_filepath weekly_dir d2
  ↔ year d1 = year d2 ∧ Datetime.iso_week d1 = Datetime.iso_week d2.
Proof.
  intros Hy1 Hy2 Hw1 Hw2. split; [|intros [? ?]; by apply weekly_filepath_key].
  unfold weekly_filepath. cbv zeta.
  assert (∀ y, 0 ≤ y → PyStr.str_Z y = PyStr.str_N (Z.abs_N y)) as Hstr.
  { intros y Hy. unfold PyStr.str_Z.
    by destruct (Z.ltb_spec y 0) as [?|_]; [lia|]. }
  assert (∀ w, 0 ≤ w →
            PyStr.zfill 2 w
            = PyStr.zeros (2 - String.length (PyStr.str_N (Z.abs_N w)))
                +:+ PyStr.str_N (Z.abs_N w)) as Hfill.
  { intros w Hw. unfold PyStr.zfill.
    by destruct (Z.ltb_spec w 0) as [?|_]; [lia|]. }
  rewrite !Hstr, !Hfill by done.
  set (Y1 := PyStr.str_N (Z.abs_N (year d1))).
  set (Y2 := PyStr.str_N (Z.abs_N (year d2))).
  set (W1 := Z.abs_N (Datetime.iso_week d1)).
  set (W2 := Z.abs_N (Datetime.iso_week d2)).
  set (k1 := (2 - String.length (PyStr.str_N W1))%nat).
  set (k2 := (2 - String.length (PyStr.str_N W2))%nat).
  set (pre := if negb (PyStr.truthy weekly_dir)
                 || PyStr.endswith_slash weekly_dir
              then weekly_dir else weekly_dir +:+ "/").
  assert (∀ Y F, Numeral.digits_only Y = true → Y ≠ "" →
            PyStr.startswith F "/" = false →
            path_join (path_join weekly_dir Y) F
            = pre +:+ Y +:+ String "/" F) as Hpath.
  { intros Y F HY HYne HF.
    rewrite (path_join_relative weekly_dir Y)
      by by apply NumeralFacts.digits_only_not_slash_start.
    fold pre. rewrite (path_join_relative _ F HF).
    rewrite NumeralFacts.endswith_slash_app by done.
    rewrite NumeralFacts.digits_only_not_slash_end by done.
    assert (PyStr.truthy (pre +:+ Y) = true) as ->.
    { destruct pre; [by destruct Y|done]. }
    simpl negb. simpl orb. by rewrite !StrFacts.app_assoc. }
  rewrite !Hpath by
    (done || apply NumeralFacts.digits_only_str_N
     || apply NumeralFacts.str_N_nonempty).
  intros Heq. apply (inj (String.app pre)) in Heq.
  pose proof (f_equal (PySeq.split_char "/") Heq) as Hsplit.
  rewrite !SplitFacts.split_char_app in Hsplit
    by (apply NumeralFacts.digits_only_no_char;
        [done|apply NumeralFacts.digits_only_str_N]).
  injection Hsplit as HY _.
  rewrite HY in Heq. apply (inj (String.app Y2)) in Heq.
  injection Heq as Heq.
  assert (W1 = W2) as HW.
  { apply (app_inj_value "week_" ".json" k1 k2 W1 W2).
    - exact (f_equal (String.append "week_") Heq).
    - apply NumeralFacts.digits_only_no_char; [done|].
      by rewrite NumeralFacts.digits_only_app,
        NumeralFacts.digits_only_zeros, NumeralFacts.digits_only_str_N.
    - apply NumeralFacts.digits_only_no_char; [done|].
      by rewrite NumeralFacts.digits_only_app,
        NumeralFacts.digits_only_zeros, NumeralFacts.digits_only_str_N.
    - by eexists. }
  split; [|unfold W1, W2 in HW; lia].
  unfold Y1, Y2 in HY.
  apply (f_equal Numeral.value) in HY.
  pose proof (NumeralFacts.value_zeros 0 (Z.abs_N (year d1))) as V1.
  pose proof (NumeralFacts.value_zeros 0 (Z.abs_N (year d2))) as V2.
  change (PyStr.zeros 0 +:+ ?x) with x in V1, V2.
  rewrite V1, V2 in HY. injection HY as HY. lia.
Qed.

Lemma weekly_filepath_same_bucket_witness :
  weekly_filepath "data/weekly" (Datetime.ymd 2025 1 2)
  = weekly_filepath "data/weekly" (Datetime.ymd 2025 1 3)
  ∧ weekly_filepath "data/weekly" (Datetime.ymd 2024 12 30)
    ≠ weekly_filepath "data/weekly" (Datetime.ymd 2025 1 2).
Proof.
  split.
  - apply (weekly_filepath_same_bucket "data/weekly"
             (Datetime.ymd 2025 1 2) (Datetime.ymd 2025 1 3));
      [by vm_compute..|]. split; reflexivity.
  - intros H.
    apply (weekly_filepath_same_bucket "data/weekly"
             (Datetime.ymd 2024 12 30) (Datetime.ymd 2025 1 2)) in H
      as [H _]; [discriminate H|by vm_compute..].
Defined.
